(** * hephaestus: the DynamoDB query service ([aws/dynamodb.go])

    A shallow embedding of [dynamodbService.Query] and of the filter
    compiler behind it ([buildFilterExpression], [buildSingleCondition]),
    followed by the properties of the design document that concern them.

    The Go code sits on top of the AWS SDK.  Two parts of the SDK are
    visible in what [Query] does and are embedded here as well:

    - package [expression]: the builders are kept as the trees the Go
      calls construct ([name.Equal(value)] is the node [Equal name value]);
      [Builder.Build], which renders a tree into placeholder strings and
      may reject it, stays a parameter of the development;
    - package [dynamodb]: [QueryInput], [QueryOutput] and the
      [QueryPaginator] ([NewQueryPaginator], [HasMorePages], [NextPage]);
      the client's [Query] call, i.e. the backend, stays a parameter: a
      transition on an abstract world, so that replies may depend on
      everything that happened before, the state of the context included. *)

From Stdlib Require Import String Ascii ZArith List Bool Lia DecimalString.
Import ListNotations.
Local Open Scope Z_scope.
Local Open Scope string_scope.

(** ** Go values *)

(** [any]: the dynamic values a caller can put into a condition.  Only
    the nil interface is told apart by the code ([== nil]); the other
    alternatives are a representative set of scalars. *)
Inductive any : Type :=
| anyNil
| anyString (s : string)
| anyInt (n : Z)
| anyBool (b : bool).

Definition isNil (v : any) : bool :=
  match v with anyNil => true | _ => false end.

(** [fmt.Sprint] on one operand. *)
Definition Sprint (v : any) : string :=
  match v with
  | anyNil => "<nil>"
  | anyString s => s
  | anyInt n => NilZero.string_of_int (Z.to_int n)
  | anyBool true => "true"
  | anyBool false => "false"
  end.

(** Go's [error] values met in this file.  The package-level sentinels are
    one constructor each (they are compared by identity); [errorString] is
    a fresh [errors.New] or [fmt.Errorf] value with its message;
    [sdkError] is whatever the SDK reports; the last two are the errors of
    package [context]. *)
Inductive error : Type :=
| DynamoDBErrBuildFilterExpression
| DynamoDBErrBuildUpdateExpression
| DynamoDBErrIndexNotSet
| DynamoDBErrQuery
| DynamoDBErrTableNotSet
| DynamoDBErrUnmarshal
| DynamoDBErrUpdateItem
| DynamoDBErrValueNotSet
| DynamoDBErrPartitionNotSet
| errorString (msg : string)
| sdkError (msg : string)
| contextCanceled
| contextDeadlineExceeded.

(** A Go result [(T, error)] with exactly one side set. *)
Definition result (A : Type) : Type := (error + A)%type.

Definition bind {A B : Type} (r : result A) (k : A -> result B) : result B :=
  match r with
  | inl e => inl e
  | inr a => k a
  end.

Declare Scope result_scope.
Delimit Scope result_scope with result.
Notation "x <- r ;; k" := (bind r (fun x => k))
  (at level 100, r at next level, right associativity) : result_scope.
Local Open Scope result_scope.

(** ** Package [types] of the SDK *)

Module types.

(** The scalar members of the SDK's [AttributeValue] union. *)
Inductive AttributeValue : Type :=
| AttributeValueMemberS (Value : string)
| AttributeValueMemberN (Value : string)
| AttributeValueMemberBOOL (Value : bool)
| AttributeValueMemberNULL (Value : bool).

End types.

(** An item, [map[string]types.AttributeValue], by its entries. *)
Definition Item : Type := list (string * types.AttributeValue).

(** ** Package [expression] of the SDK *)

Module expression.

Inductive OperandBuilder : Type :=
| Name (name : string)
| Value (value : any).

Inductive KeyBuilder : Type :=
| Key (key : string).

Inductive KeyConditionBuilder : Type :=
| KeyEqual (k : KeyBuilder) (v : OperandBuilder)
| KeyAnd (left right : KeyConditionBuilder).

(** [Unset] is the zero value [ConditionBuilder{}]. *)
Inductive ConditionBuilder : Type :=
| Unset
| Equal (l r : OperandBuilder)
| NotEqual (l r : OperandBuilder)
| LessThan (l r : OperandBuilder)
| LessThanEqual (l r : OperandBuilder)
| GreaterThan (l r : OperandBuilder)
| GreaterThanEqual (l r : OperandBuilder)
| Between (op lower upper : OperandBuilder)
| In (op first : OperandBuilder) (others : list OperandBuilder)
| Contains (op : OperandBuilder) (substr : string)
| BeginsWith (op : OperandBuilder) (prefix : string)
| AttributeExists (op : OperandBuilder)
| AttributeNotExists (op : OperandBuilder)
| And (left right : ConditionBuilder)
| Or (left right : ConditionBuilder).

(** [NewBuilder()], [WithKeyCondition], [WithFilter]. *)
Record Builder : Type := mkBuilder {
  keyCondition : option KeyConditionBuilder;
  filter : option ConditionBuilder
}.

Definition NewBuilder : Builder := mkBuilder None None.

Definition WithKeyCondition (b : Builder) (k : KeyConditionBuilder) : Builder :=
  mkBuilder (Some k) (filter b).

Definition WithFilter (b : Builder) (c : ConditionBuilder) : Builder :=
  mkBuilder (keyCondition b) (Some c).

(** What [Build] returns; the accessors [Names()], [Values()],
    [KeyCondition()], [Projection()] and [Filter()] are the fields.
    A nil map or nil string pointer is [None]. *)
Record Expression : Type := mkExpression {
  Names : option (list (string * string));
  Values : option (list (string * types.AttributeValue));
  KeyCondition : option string;
  Projection : option string;
  Filter : option string
}.

End expression.

(** ** The types of [aws/dynamodb.go] *)

Definition defaultLimit : Z := 100.

Definition LogicalOperator : Type := string.
Definition AND : LogicalOperator := "AND".
Definition OR : LogicalOperator := "OR".

Definition WhereOperator : Type := string.
Definition Equal : WhereOperator := "=".
Definition NotEqual : WhereOperator := "!=".
Definition LessThan : WhereOperator := "<".
Definition LessThanEqual : WhereOperator := "<=".
Definition GreaterThan : WhereOperator := ">".
Definition GreaterThanEqual : WhereOperator := ">=".
Definition Between : WhereOperator := "BETWEEN".
Definition In : WhereOperator := "IN".
Definition Contains : WhereOperator := "CONTAINS".
Definition BeginsWith : WhereOperator := "BEGINS_WITH".
Definition AttributeExists : WhereOperator := "EXISTS".
Definition AttributeNotExists : WhereOperator := "NOT_EXISTS".

Record QueryKeyValue : Type := mkQueryKeyValue {
  Key : string;
  Value : any;
  Operator : WhereOperator
}.

Record WhereCondition : Type := mkWhereCondition {
  Field : string;
  condOperator : WhereOperator;
  condValue : any;
  Value2 : any;
  Values : list any
}.

(** [Where] nests itself through the slice [Groups]. *)
#[local] Set Warnings "-register-all".
Inductive Where : Type :=
| mkWhere (Conditions : list WhereCondition)
          (Groups : list Where)
          (whereOperator : LogicalOperator).

Definition Conditions (w : Where) : list WhereCondition :=
  match w with mkWhere cs _ _ => cs end.
Definition Groups (w : Where) : list Where :=
  match w with mkWhere _ gs _ => gs end.
Definition whereOperator (w : Where) : LogicalOperator :=
  match w with mkWhere _ _ op => op end.

(** [Limit] is an [int32]; no arithmetic is done on it.  The pointer
    fields are options. *)
Record QueryOptions : Type := mkQueryOptions {
  Table : string;
  Index : string;
  Limit : Z;
  Cursor : string;
  Partition : option QueryKeyValue;
  Sort : option QueryKeyValue;
  Where' : option Where
}.

(** ** The filter compiler *)

(** [buildSingleCondition]: one [switch] over the operator string. *)
Definition buildSingleCondition (cond : WhereCondition)
  : result expression.ConditionBuilder :=
  let name := expression.Name (Field cond) in
  let op := condOperator cond in
  if op =? Equal then
    inr (expression.Equal name (expression.Value (condValue cond)))
  else if op =? NotEqual then
    inr (expression.NotEqual name (expression.Value (condValue cond)))
  else if op =? LessThan then
    inr (expression.LessThan name (expression.Value (condValue cond)))
  else if op =? LessThanEqual then
    inr (expression.LessThanEqual name (expression.Value (condValue cond)))
  else if op =? GreaterThan then
    inr (expression.GreaterThan name (expression.Value (condValue cond)))
  else if op =? GreaterThanEqual then
    inr (expression.GreaterThanEqual name (expression.Value (condValue cond)))
  else if op =? Between then
    inr (expression.Between name (expression.Value (condValue cond))
                                 (expression.Value (Value2 cond)))
  else if op =? In then
    match Values cond with
    | [] => inl (errorString "IN operator requires non-empty Values slice")
    | first :: rest =>
        let firstValue := expression.Value first in
        let additionalValues := map expression.Value rest in
        inr (expression.In name firstValue additionalValues)
    end
  else if op =? Contains then
    inr (expression.Contains name (Sprint (condValue cond)))
  else if op =? BeginsWith then
    inr (expression.BeginsWith name (Sprint (condValue cond)))
  else if op =? AttributeExists then
    inr (expression.AttributeExists name)
  else if op =? AttributeNotExists then
    inr (expression.AttributeNotExists name)
  else
    inl (errorString ("unsupported operator: " ++ op)).

(** The first loop of [buildFilterExpression]: compile the leaves in
    order and stop at the first error. *)
Fixpoint buildConditions (conds : list WhereCondition)
  : result (list expression.ConditionBuilder) :=
  match conds with
  | [] => inr []
  | condition :: rest =>
      cond <- buildSingleCondition condition ;;
      conds' <- buildConditions rest ;;
      inr (cond :: conds')
  end.

(** [where.Operator == "" || where.Operator == AND]. *)
Definition isAnd (op : LogicalOperator) : bool :=
  (op =? "") || (op =? AND).

(** One step of the combining loop: [result.And(c)] or [result.Or(c)]. *)
Definition combine (op : LogicalOperator)
  (acc c : expression.ConditionBuilder) : expression.ConditionBuilder :=
  if isAnd op then expression.And acc c else expression.Or acc c.

(** The tail of [buildFilterExpression], from [len(conditions) == 0] on. *)
Definition combineAll (op : LogicalOperator)
  (conditions : list expression.ConditionBuilder)
  : result expression.ConditionBuilder :=
  match conditions with
  | [] => inl (errorString "no conditions provided")
  | first :: rest => inr (fold_left (combine op) rest first)
  end.

(** [buildFilterExpression]: leaves first, then the nested groups (the
    inner [fix] is the second loop, recursing into each group), then the
    fold. *)
Fixpoint buildFilterExpression (w : Where)
  : result expression.ConditionBuilder :=
  match w with
  | mkWhere conds groups op =>
      leaves <- buildConditions conds ;;
      nested <-
        (fix buildGroups (gs : list Where)
           : result (list expression.ConditionBuilder) :=
           match gs with
           | [] => inr []
           | nestedGroup :: gs' =>
               nestedCond <- buildFilterExpression nestedGroup ;;
               rest <- buildGroups gs' ;;
               inr (nestedCond :: rest)
           end) groups ;;
      combineAll op (leaves ++ nested)
  end.

(** The second loop on its own, for statements about it. *)
Fixpoint buildGroups (gs : list Where)
  : result (list expression.ConditionBuilder) :=
  match gs with
  | [] => inr []
  | nestedGroup :: gs' =>
      nestedCond <- buildFilterExpression nestedGroup ;;
      rest <- buildGroups gs' ;;
      inr (nestedCond :: rest)
  end.

(** ** Package [dynamodb] of the SDK *)

Module dynamodb.

(** The fields of [QueryInput] that [Query] or the paginator touch.
    [ExclusiveStartKey] is the continuation token of a request: the
    [LastEvaluatedKey] of the page before, nil ([None]) to start at the
    beginning. *)
Record QueryInput : Type := mkQueryInput {
  TableName : option string;
  IndexName : option string;
  ExpressionAttributeNames : option (list (string * string));
  ExpressionAttributeValues : option (list (string * types.AttributeValue));
  KeyConditionExpression : option string;
  ProjectionExpression : option string;
  FilterExpression : option string;
  Limit : option Z;
  ExclusiveStartKey : option Item
}.

Record QueryOutput : Type := mkQueryOutput {
  Items : list Item;
  LastEvaluatedKey : option Item
}.

(** [QueryPaginator] as aws-sdk-go-v2 generates it, with [options.Limit]
    as the field [limit]. *)
Record QueryPaginator : Type := mkQueryPaginator {
  limit : Z;
  params : QueryInput;
  nextToken : option Item;
  firstPage : bool
}.

Definition NewQueryPaginator (params : QueryInput) : QueryPaginator :=
  {| limit := match Limit params with Some n => n | None => 0 end;
     params := params;
     nextToken := ExclusiveStartKey params;
     firstPage := true |}.

Definition HasMorePages (p : QueryPaginator) : bool :=
  firstPage p || match nextToken p with Some _ => true | None => false end.

(** The request [NextPage] sends: a copy of [params] with the token of
    the page before and with the limit only when it is positive. *)
Definition pageRequest (p : QueryPaginator) : QueryInput :=
  let q := params p in
  {| TableName := TableName q;
     IndexName := IndexName q;
     ExpressionAttributeNames := ExpressionAttributeNames q;
     ExpressionAttributeValues := ExpressionAttributeValues q;
     KeyConditionExpression := KeyConditionExpression q;
     ProjectionExpression := ProjectionExpression q;
     FilterExpression := FilterExpression q;
     Limit := if (0 <? limit p)%Z then Some (limit p) else None;
     ExclusiveStartKey := nextToken p |}.

Section Client.

(** The backend.  [World] is everything outside the program that a
    reply can depend on and a call can change; [Ctx] is
    [context.Context]; [Query] is the client's method. *)
Context {World Ctx : Type}.
Variable Query : Ctx -> QueryInput -> World -> result QueryOutput * World.

(** The world together with the requests sent so far, oldest first.
    The list is a ghost trace: it lets a statement count the calls. *)
Record State : Type := mkState {
  world : World;
  sent : list QueryInput
}.

(** [NextPage]: the paginator is mutated in Go and returned here. *)
Definition NextPage (ctx : Ctx) (p : QueryPaginator) (st : State)
  : result (QueryOutput * QueryPaginator) * State :=
  if negb (HasMorePages p) then
    (inl (errorString "no more pages available"), st)
  else
    let request := pageRequest p in
    let (reply, w) := Query ctx request (world st) in
    let st' := {| world := w; sent := sent st ++ [request] |} in
    match reply with
    | inl err => (inl err, st')
    | inr result =>
        (inr (result, {| limit := limit p;
                         params := params p;
                         nextToken := LastEvaluatedKey result;
                         firstPage := false |}), st')
    end.

End Client.

Arguments State : clear implicits.

End dynamodb.

(** ** [dynamodbService] *)

Section Service.

Context {World Ctx : Type}.

(** [expression.Builder.Build]. *)
Variable Build : expression.Builder -> result expression.Expression.

(** [dynamodbService{client}]; [dynamodb.Client] is known by its
    [Query] method. *)
Record dynamodbService : Type := mkService {
  client : Ctx -> dynamodb.QueryInput -> World
           -> result dynamodb.QueryOutput * World
}.

(** [Query], lines 115-126: the key condition, given the checked
    partition. *)
Definition keyCondition (opts : QueryOptions) (partition : QueryKeyValue)
  : result expression.KeyConditionBuilder :=
  let keyEx :=
    expression.KeyEqual (expression.Key (Key partition))
                        (expression.Value (Value partition)) in
  match Sort opts with
  | Some sort =>
      if negb (Key sort =? "") && negb (isNil (Value sort)) then
        if Operator sort =? Equal then
          inr (expression.KeyAnd keyEx
                 (expression.KeyEqual (expression.Key (Key sort))
                                      (expression.Value (Value sort))))
        else
          inl (errorString ("unsupported sort key operator: " ++ Operator sort))
      else inr keyEx
  | None => inr keyEx
  end.

(** [Query], lines 103-157: validation and the assembly of the request.
    [FilterExpression] is assigned only when [expr.Filter()] is not nil,
    which leaves it equal to [expr.Filter()] in both cases.  (The debug
    print of the request that follows is not modelled.) *)
Definition queryInput (opts : QueryOptions) : result dynamodb.QueryInput :=
  if Table opts =? "" then inl DynamoDBErrTableNotSet
  else if Index opts =? "" then inl DynamoDBErrIndexNotSet
  else
    match Partition opts with
    | None => inl DynamoDBErrPartitionNotSet
    | Some partition =>
        if (Key partition =? "") || isNil (Value partition) then
          inl DynamoDBErrPartitionNotSet
        else
          keyEx <- keyCondition opts partition ;;
          let builder := expression.WithKeyCondition expression.NewBuilder keyEx in
          builder <-
            match Where' opts with
            | Some w =>
                match buildFilterExpression w with
                | inl _ => inl DynamoDBErrBuildFilterExpression
                | inr filterExpr => inr (expression.WithFilter builder filterExpr)
                end
            | None => inr builder
            end ;;
          expr <- Build builder ;;
          inr {| dynamodb.TableName := Some (Table opts);
                 dynamodb.IndexName := Some (Index opts);
                 dynamodb.ExpressionAttributeNames := expression.Names expr;
                 dynamodb.ExpressionAttributeValues := expression.Values expr;
                 dynamodb.KeyConditionExpression := expression.KeyCondition expr;
                 dynamodb.ProjectionExpression := expression.Projection expr;
                 dynamodb.FilterExpression := expression.Filter expr;
                 dynamodb.Limit := Some (Limit opts);
                 dynamodb.ExclusiveStartKey := None |}
    end.

(** What [Query] returns: [([]map[string]types.AttributeValue, error)],
    a nil slice being the empty list, and the state of the backend. *)
Definition outcome : Type :=
  ((list Item * option error) * dynamodb.State World)%type.

(** [Query], lines 168-178: the loop over the pages.  It may run for
    ever (a backend can hand out tokens without end), so it is given
    fuel: one unit per test of [HasMorePages]. *)
Fixpoint paginate (fuel : nat) (d : dynamodbService) (ctx : Ctx)
  (queryPaginator : dynamodb.QueryPaginator) (items : list Item)
  (st : dynamodb.State World) : option outcome :=
  match fuel with
  | O => None
  | S fuel' =>
      if dynamodb.HasMorePages queryPaginator then
        match dynamodb.NextPage (client d) ctx queryPaginator st with
        | (inl _, st') => Some (([], Some DynamoDBErrQuery), st')
        | (inr (response, queryPaginator'), st') =>
            paginate fuel' d ctx queryPaginator'
                     (items ++ dynamodb.Items response) st'
        end
      else Some ((items, None), st)
  end.

Definition Query (fuel : nat) (d : dynamodbService) (ctx : Ctx)
  (opts : QueryOptions) (st : dynamodb.State World) : option outcome :=
  match queryInput opts with
  | inl err => Some (([], Some err), st)
  | inr input =>
      paginate fuel d ctx (dynamodb.NewQueryPaginator input) [] st
  end.

End Service.

Arguments mkService {World Ctx} client.
Arguments dynamodbService : clear implicits.

(** ** A synthetic SDK

    One concrete [Build] and one concrete backend, to run [Query] on. *)

Module Synthetic.

Definition operand (o : expression.OperandBuilder) : string :=
  match o with
  | expression.Name n => n
  | expression.Value v => Sprint v
  end.

Fixpoint operands (os : list expression.OperandBuilder) : string :=
  match os with
  | [] => ""
  | o :: os' => ", " ++ operand o ++ operands os'
  end.

Fixpoint condition (c : expression.ConditionBuilder) : string :=
  match c with
  | expression.Unset => ""
  | expression.Equal l r => operand l ++ " = " ++ operand r
  | expression.NotEqual l r => operand l ++ " <> " ++ operand r
  | expression.LessThan l r => operand l ++ " < " ++ operand r
  | expression.LessThanEqual l r => operand l ++ " <= " ++ operand r
  | expression.GreaterThan l r => operand l ++ " > " ++ operand r
  | expression.GreaterThanEqual l r => operand l ++ " >= " ++ operand r
  | expression.Between o lo hi =>
      operand o ++ " BETWEEN " ++ operand lo ++ " AND " ++ operand hi
  | expression.In o first others =>
      operand o ++ " IN (" ++ operand first ++ operands others ++ ")"
  | expression.Contains o s => "contains (" ++ operand o ++ ", " ++ s ++ ")"
  | expression.BeginsWith o s => "begins_with (" ++ operand o ++ ", " ++ s ++ ")"
  | expression.AttributeExists o => "attribute_exists (" ++ operand o ++ ")"
  | expression.AttributeNotExists o => "attribute_not_exists (" ++ operand o ++ ")"
  | expression.And l r => "(" ++ condition l ++ ") AND (" ++ condition r ++ ")"
  | expression.Or l r => "(" ++ condition l ++ ") OR (" ++ condition r ++ ")"
  end.

Fixpoint keys (k : expression.KeyConditionBuilder) : string :=
  match k with
  | expression.KeyEqual (expression.Key key) v => key ++ " = " ++ operand v
  | expression.KeyAnd l r => "(" ++ keys l ++ ") AND (" ++ keys r ++ ")"
  end.

(** A [Build] that writes names and values in place, without
    placeholders, and rejects a builder with nothing set. *)
Definition Build (b : expression.Builder) : result expression.Expression :=
  match expression.keyCondition b, expression.filter b with
  | None, None => inl (sdkError "unset parameter: Builder")
  | k, f =>
      inr {| expression.Names := None;
             expression.Values := None;
             expression.KeyCondition := option_map keys k;
             expression.Projection := None;
             expression.Filter := option_map condition f |}
  end.

(** The backend of a test: the replies still to come, in order, and the
    number of pages it has handed out. *)
Record World : Type := mkWorld {
  script : list (result dynamodb.QueryOutput);
  served : nat
}.

(** The caller's context: [Some n] is cancelled by the caller as soon
    as [n] pages have arrived, [None] is never cancelled. *)
Definition Ctx : Type := option nat.

(** [ctx.Err()] in a given world. *)
Definition Err (ctx : Ctx) (w : World) : option error :=
  match ctx with
  | Some n => if (n <=? served w)%nat then Some contextCanceled else None
  | None => None
  end.

(** A client that honours the context, as the SDK's does: a call under
    a cancelled context fails with the context's error and reaches no
    page; otherwise the next reply of the script is returned. *)
Definition Query (ctx : Ctx) (input : dynamodb.QueryInput) (w : World)
  : result dynamodb.QueryOutput * World :=
  match Err ctx w with
  | Some err => (inl err, w)
  | None =>
      match script w with
      | [] => (inl (sdkError "connection reset"), w)
      | inl err :: rest => (inl err, {| script := rest; served := served w |})
      | inr page :: rest => (inr page, {| script := rest; served := S (served w) |})
      end
  end.

Definition service : dynamodbService World Ctx := mkService Query.

(** A client that does not look at the context at all. *)
Definition QueryUnaware (ctx : Ctx) (input : dynamodb.QueryInput) (w : World)
  : result dynamodb.QueryOutput * World :=
  Query None input w.

Definition start (replies : list (result dynamodb.QueryOutput))
  : dynamodb.State World :=
  {| dynamodb.world := {| script := replies; served := 0 |};
     dynamodb.sent := [] |}.

Definition item (name value : string) : Item :=
  [(name, types.AttributeValueMemberS value)].

(** A page of items with the continuation token for the next one. *)
Definition page (items : list Item) (next : option Item)
  : result dynamodb.QueryOutput :=
  inr {| dynamodb.Items := items; dynamodb.LastEvaluatedKey := next |}.

(** The query of the command-line tool ([cli/aws.go]). *)
Definition cliOptions : QueryOptions :=
  {| Table := "table";
     Index := "Status";
     Limit := 0;
     Cursor := "";
     Partition := Some {| Key := "Status"; Value := anyString "active";
                          Operator := "" |};
     Sort := None;
     Where' := Some (mkWhere
                 [ {| Field := "Keywords"; condOperator := Contains;
                      condValue := anyString "pika"; Value2 := anyNil;
                      Values := [] |} ] [] "") |}.

(** The page request of that query, from a given token on. *)
Definition cliRequest (token : option Item) : dynamodb.QueryInput :=
  {| dynamodb.TableName := Some "table";
     dynamodb.IndexName := Some "Status";
     dynamodb.ExpressionAttributeNames := None;
     dynamodb.ExpressionAttributeValues := None;
     dynamodb.KeyConditionExpression := Some "Status = active";
     dynamodb.ProjectionExpression := None;
     dynamodb.FilterExpression := Some "contains (Keywords, pika)";
     dynamodb.Limit := None;
     dynamodb.ExclusiveStartKey := token |}.

(** The request [Query] assembles for it, and the paginator once the
    first page has come with the token [token]. *)
Definition cliInput : dynamodb.QueryInput :=
  {| dynamodb.TableName := Some "table";
     dynamodb.IndexName := Some "Status";
     dynamodb.ExpressionAttributeNames := None;
     dynamodb.ExpressionAttributeValues := None;
     dynamodb.KeyConditionExpression := Some "Status = active";
     dynamodb.ProjectionExpression := None;
     dynamodb.FilterExpression := Some "contains (Keywords, pika)";
     dynamodb.Limit := Some 0%Z;
     dynamodb.ExclusiveStartKey := None |}.

Definition cliPaginator (token : option Item) : dynamodb.QueryPaginator :=
  {| dynamodb.limit := 0;
     dynamodb.params := cliInput;
     dynamodb.nextToken := token;
     dynamodb.firstPage := false |}.

(** Three pages of 3, 3 and 2 items; the last item of a page is the
    token for the next. *)
Definition page1 : result dynamodb.QueryOutput :=
  page [item "id" "1"; item "id" "2"; item "id" "3"] (Some (item "id" "3")).
Definition page2 : result dynamodb.QueryOutput :=
  page [item "id" "4"; item "id" "5"; item "id" "6"] (Some (item "id" "6")).
Definition page3 : result dynamodb.QueryOutput :=
  page [item "id" "7"; item "id" "8"] None.

(** Two filters that do not compile, for different reasons. *)
Definition emptyWhere : Where := mkWhere [] [] "".
Definition likeWhere : Where :=
  mkWhere [ {| Field := "Keywords"; condOperator := "LIKE";
               condValue := anyString "pika%"; Value2 := anyNil;
               Values := [] |} ] [] "".

(** A [Build] that, as the SDK's does, rejects a condition on an
    attribute without a name. *)
Definition unnamed (o : expression.OperandBuilder) : bool :=
  match o with
  | expression.Name n => n =? ""
  | expression.Value _ => false
  end.

Fixpoint anyUnnamed (c : expression.ConditionBuilder) : bool :=
  match c with
  | expression.Unset => false
  | expression.Equal l _ | expression.NotEqual l _ | expression.LessThan l _
  | expression.LessThanEqual l _ | expression.GreaterThan l _
  | expression.GreaterThanEqual l _ | expression.Between l _ _
  | expression.In l _ _ | expression.Contains l _ | expression.BeginsWith l _
  | expression.AttributeExists l | expression.AttributeNotExists l => unnamed l
  | expression.And l r | expression.Or l r => anyUnnamed l || anyUnnamed r
  end.

Definition BuildNamed (b : expression.Builder) : result expression.Expression :=
  match expression.filter b with
  | Some c =>
      if anyUnnamed c then inl (sdkError "unset parameter: NameBuilder")
      else Build b
  | None => Build b
  end.

(** The three pages as the client returns them. *)
Definition output1 : dynamodb.QueryOutput :=
  {| dynamodb.Items := [item "id" "1"; item "id" "2"; item "id" "3"];
     dynamodb.LastEvaluatedKey := Some (item "id" "3") |}.
Definition output2 : dynamodb.QueryOutput :=
  {| dynamodb.Items := [item "id" "4"; item "id" "5"; item "id" "6"];
     dynamodb.LastEvaluatedKey := Some (item "id" "6") |}.
Definition output3 : dynamodb.QueryOutput :=
  {| dynamodb.Items := [item "id" "7"; item "id" "8"];
     dynamodb.LastEvaluatedKey := None |}.

(** A backend without end: every request gets the same page, with a
    token. *)
Definition QueryForever (ctx : Ctx) (input : dynamodb.QueryInput) (w : World)
  : result dynamodb.QueryOutput * World :=
  (inr output1, {| script := script w; served := S (served w) |}).

(** The backend once the three pages have been fetched for the query of
    the command-line tool. *)
Definition exhausted : dynamodb.State World :=
  {| dynamodb.world := {| script := []; served := 3 |};
     dynamodb.sent := [ cliRequest None;
                        cliRequest (Some (item "id" "3"));
                        cliRequest (Some (item "id" "6")) ] |}.

End Synthetic.

(** Setters, for statements that vary one field of the options. *)
Definition withCursor (opts : QueryOptions) (cursor : string) : QueryOptions :=
  {| Table := Table opts; Index := Index opts; Limit := Limit opts;
     Cursor := cursor; Partition := Partition opts; Sort := Sort opts;
     Where' := Where' opts |}.

Definition withWhere (opts : QueryOptions) (w : option Where) : QueryOptions :=
  {| Table := Table opts; Index := Index opts; Limit := Limit opts;
     Cursor := Cursor opts; Partition := Partition opts; Sort := Sort opts;
     Where' := w |}.

Definition withTable (opts : QueryOptions) (table : string) : QueryOptions :=
  {| Table := table; Index := Index opts; Limit := Limit opts;
     Cursor := Cursor opts; Partition := Partition opts; Sort := Sort opts;
     Where' := Where' opts |}.

Definition withSort (opts : QueryOptions) (sort : option QueryKeyValue)
  : QueryOptions :=
  {| Table := Table opts; Index := Index opts; Limit := Limit opts;
     Cursor := Cursor opts; Partition := Partition opts; Sort := sort;
     Where' := Where' opts |}.

(** The same tree with every level's operator replaced through [f]. *)
Fixpoint mapOperators (f : LogicalOperator -> LogicalOperator) (w : Where)
  : Where :=
  match w with
  | mkWhere conds groups op =>
      mkWhere conds (map (mapOperators f) groups) (f op)
  end.

(** [k] pages fetched one after the other, each with success: the run of
    the loop of [Query] from one test of [HasMorePages] to a later one. *)
Inductive fetches {World Ctx : Type} (d : dynamodbService World Ctx) (ctx : Ctx)
  : dynamodb.QueryPaginator * list Item * dynamodb.State World -> nat
    -> dynamodb.QueryPaginator * list Item * dynamodb.State World -> Prop :=
| fetches_none : forall s, fetches d ctx s O s
| fetches_page : forall p items st response p' st' k s,
    dynamodb.HasMorePages p = true ->
    dynamodb.NextPage (client d) ctx p st = (inr (response, p'), st') ->
    fetches d ctx (p', (items ++ dynamodb.Items response)%list, st') k s ->
    fetches d ctx (p, items, st) (S k) s.

(** The partition fails the third check of [Query]. *)
Definition PartitionUnset (partition : option QueryKeyValue) : Prop :=
  match partition with
  | None => True
  | Some p => Key p = "" \/ Value p = anyNil
  end.

(** ** Vocabulary for the further properties *)

(** The operators of the [const] block, in its order. *)
Definition WhereOperators : list WhereOperator :=
  [ Equal; NotEqual; LessThan; LessThanEqual; GreaterThan; GreaterThanEqual;
    Between; In; Contains; BeginsWith; AttributeExists; AttributeNotExists ].

Definition isWhereOperator (op : WhereOperator) : bool :=
  existsb (String.eqb op) WhereOperators.

(** A condition [buildSingleCondition] accepts: a listed operator, and
    operands when the operator is [In]. *)
Definition compilable (cond : WhereCondition) : bool :=
  isWhereOperator (condOperator cond)
  && negb ((condOperator cond =? In)
           && match Values cond with [] => true | _ => false end).

(** A tree [buildFilterExpression] accepts: every condition compilable
    and no node empty, at every level. *)
Fixpoint wellFormed (w : Where) : bool :=
  match w with
  | mkWhere conds groups _ =>
      forallb compilable conds
      && forallb wellFormed groups
      && negb (match conds, groups with [], [] => true | _, _ => false end)
  end.

(** The conditions of a tree in the order the compiler meets them: those
    of a node, then those of its groups. *)
Fixpoint allConditions (w : Where) : list WhereCondition :=
  match w with
  | mkWhere conds groups _ => (conds ++ flat_map allConditions groups)%list
  end.

(** The predicates a combined predicate is made of, left to right. *)
Fixpoint conjuncts (c : expression.ConditionBuilder)
  : list expression.ConditionBuilder :=
  match c with
  | expression.And l r | expression.Or l r => (conjuncts l ++ conjuncts r)%list
  | _ => [c]
  end.

Definition withValue (cond : WhereCondition) (v : any) : WhereCondition :=
  {| Field := Field cond; condOperator := condOperator cond; condValue := v;
     Value2 := Value2 cond; Values := Values cond |}.

Definition withValue2 (cond : WhereCondition) (v : any) : WhereCondition :=
  {| Field := Field cond; condOperator := condOperator cond;
     condValue := condValue cond; Value2 := v; Values := Values cond |}.

Definition withValues (cond : WhereCondition) (vs : list any) : WhereCondition :=
  {| Field := Field cond; condOperator := condOperator cond;
     condValue := condValue cond; Value2 := Value2 cond; Values := vs |}.

Definition withPartition (opts : QueryOptions) (partition : option QueryKeyValue)
  : QueryOptions :=
  {| Table := Table opts; Index := Index opts; Limit := Limit opts;
     Cursor := Cursor opts; Partition := partition; Sort := Sort opts;
     Where' := Where' opts |}.

(** The pages fetched one after the other, each with success, with the
    replies of the backend in order. *)
Inductive pagesFetched {World Ctx : Type} (d : dynamodbService World Ctx)
  (ctx : Ctx)
  : dynamodb.QueryPaginator * dynamodb.State World
    -> list dynamodb.QueryOutput
    -> dynamodb.QueryPaginator * dynamodb.State World -> Prop :=
| pagesFetched_none : forall s, pagesFetched d ctx s [] s
| pagesFetched_page : forall p st response p' st' responses s,
    dynamodb.HasMorePages p = true ->
    dynamodb.NextPage (client d) ctx p st = (inr (response, p'), st') ->
    pagesFetched d ctx (p', st') responses s ->
    pagesFetched d ctx (p, st) (response :: responses) s.

(** The page request for a request [input] from the token [token] on. *)
Definition requestFrom (input : dynamodb.QueryInput) (token : option Item)
  : dynamodb.QueryInput :=
  dynamodb.pageRequest
    {| dynamodb.limit := match dynamodb.Limit input with
                         | Some n => n
                         | None => 0
                         end;
       dynamodb.params := input;
       dynamodb.nextToken := token;
       dynamodb.firstPage := false |}.

(** * Properties *)

Local Open Scope list_scope.

(** ** Preliminaries *)

Lemma eqb_false_neq (a b : string) : a <> b -> (a =? b) = false.
Proof. intro H. apply String.eqb_neq. exact H. Qed.

Lemma isNil_true (v : any) : isNil v = true <-> v = anyNil.
Proof. destruct v; simpl; split; congruence. Qed.

Lemma isNil_false (v : any) : v <> anyNil -> isNil v = false.
Proof. destruct v; simpl; congruence. Qed.

Lemma isAnd_other (op : LogicalOperator) :
  op <> "" -> op <> AND -> isAnd op = false.
Proof.
  intros H1 H2. unfold isAnd.
  rewrite (eqb_false_neq _ _ H1), (eqb_false_neq _ _ H2). reflexivity.
Qed.

(** The two loops of [buildFilterExpression] succeed exactly when every
    element compiles, and then give the predicates in order. *)
Lemma buildConditions_Forall2 conds leaves :
  buildConditions conds = inr leaves <->
  Forall2 (fun c p => buildSingleCondition c = inr p) conds leaves.
Proof.
  revert leaves. induction conds as [|c conds IH]; intros leaves; simpl.
  - split; intro H.
    + injection H as <-. constructor.
    + inversion H. reflexivity.
  - split; intro H.
    + destruct (buildSingleCondition c) as [e|p] eqn:Hc; simpl in H; [discriminate|].
      destruct (buildConditions conds) as [e|ps] eqn:Hcs; simpl in H; [discriminate|].
      injection H as <-. constructor; [exact Hc|]. apply IH. reflexivity.
    + inversion H as [|? p ? ps Hc Hcs]; subst.
      rewrite Hc. simpl. apply IH in Hcs. rewrite Hcs. reflexivity.
Qed.

Lemma buildGroups_Forall2 groups nested :
  buildGroups groups = inr nested <->
  Forall2 (fun g p => buildFilterExpression g = inr p) groups nested.
Proof.
  revert nested. induction groups as [|g groups IH]; intros nested.
  - simpl. split; intro H.
    + injection H as <-. constructor.
    + inversion H. reflexivity.
  - cbn [buildGroups]. split; intro H.
    + destruct (buildFilterExpression g) as [e|p] eqn:Hg; simpl in H; [discriminate|].
      destruct (buildGroups groups) as [e|ps] eqn:Hgs; simpl in H; [discriminate|].
      injection H as <-. constructor; [exact Hg|]. apply IH. reflexivity.
    + inversion H as [|? p ? ps Hg Hgs]; subst.
      rewrite Hg. simpl. apply IH in Hgs. rewrite Hgs. reflexivity.
Qed.

(** [buildFilterExpression] in terms of its two loops and the fold. *)
Lemma buildFilterExpression_eq conds groups op :
  buildFilterExpression (mkWhere conds groups op) =
  (leaves <- buildConditions conds ;;
   nested <- buildGroups groups ;;
   combineAll op (leaves ++ nested)).
Proof. reflexivity. Qed.

(** Induction on a [Where] tree, with the hypothesis on every group. *)
Lemma Where_ind' (P : Where -> Prop) :
  (forall conds groups op, Forall P groups -> P (mkWhere conds groups op)) ->
  forall w, P w.
Proof.
  intros step. fix IH 1. intros [conds groups op]. apply step.
  induction groups as [|g groups IHg]; constructor.
  - apply IH.
  - exact IHg.
Qed.

(** Whether a result failed, and with what, is [failure]. *)
Definition failure {A : Type} (r : result A) : option error :=
  match r with
  | inl e => Some e
  | inr _ => None
  end.

Lemma combineAll_failure op op' (l l' : list expression.ConditionBuilder) :
  length l = length l' ->
  failure (combineAll op l) = failure (combineAll op' l').
Proof. destruct l, l'; simpl; intros H; congruence. Qed.

Lemma buildGroups_mapOperators f groups :
  Forall (fun g => failure (buildFilterExpression (mapOperators f g))
                   = failure (buildFilterExpression g)) groups ->
  match buildGroups groups with
  | inl e => buildGroups (map (mapOperators f) groups) = inl e
  | inr nested =>
      exists nested', buildGroups (map (mapOperators f) groups) = inr nested'
                      /\ length nested' = length nested
  end.
Proof.
  induction 1 as [|g groups Hg _ IH]; cbn [map buildGroups].
  - exists []. split; reflexivity.
  - destruct (buildFilterExpression g) as [e|c],
             (buildFilterExpression (mapOperators f g)) as [e'|c'];
      simpl in Hg; try discriminate.
    + injection Hg as ->. reflexivity.
    + cbn [bind]. destruct (buildGroups groups) as [e|nested].
      * rewrite IH. reflexivity.
      * destruct IH as (nested' & -> & Hlen). cbn [bind].
        exists (c' :: nested'). split; [reflexivity|]. simpl. congruence.
Qed.

Lemma buildFilterExpression_mapOperators f w :
  failure (buildFilterExpression (mapOperators f w))
  = failure (buildFilterExpression w).
Proof.
  induction w as [conds groups op IH] using Where_ind'.
  cbn [mapOperators]. rewrite !buildFilterExpression_eq.
  destruct (buildConditions conds) as [e|leaves]; [reflexivity|]. cbn [bind].
  pose proof (buildGroups_mapOperators f groups IH) as Hg.
  destruct (buildGroups groups) as [e|nested].
  - rewrite Hg. reflexivity.
  - destruct Hg as (nested' & -> & Hlen). cbn [bind].
    apply combineAll_failure. rewrite !length_app. congruence.
Qed.

(** ** The condition compiler *)

(** C3, as the code has it: a condition with operator [Between] always
    compiles, to the range predicate over [Field] with the operands
    [Value] and [Value2] as they are, a nil one included; no bound is
    checked and no error is returned. *)
Theorem buildSingleCondition_Between (cond : WhereCondition) :
  condOperator cond = Between ->
  buildSingleCondition cond
  = inr (expression.Between (expression.Name (Field cond))
           (expression.Value (condValue cond))
           (expression.Value (Value2 cond))).
Proof.
  intros H. unfold buildSingleCondition. rewrite H. reflexivity.
Qed.

Lemma buildSingleCondition_Between_witness :
  buildSingleCondition
    {| Field := "year"; condOperator := Between; condValue := anyNil;
       Value2 := anyNil; Values := [] |}
  = inr (expression.Between (expression.Name "year")
           (expression.Value anyNil) (expression.Value anyNil)).
Proof.
  apply (buildSingleCondition_Between
           {| Field := "year"; condOperator := Between; condValue := anyNil;
              Value2 := anyNil; Values := [] |}).
  reflexivity.
Defined.

(** C3 as stated fails: [Between] with a lower bound and no upper bound
    does not fail; it compiles to a range predicate whose upper operand
    is the nil value. *)
Lemma Between_without_Value2_compiles :
  buildSingleCondition
    {| Field := "year"; condOperator := Between; condValue := anyInt 2020;
       Value2 := anyNil; Values := [] |}
  = inr (expression.Between (expression.Name "year")
           (expression.Value (anyInt 2020)) (expression.Value anyNil)).
Proof. reflexivity. Qed.

(** ** The Where compiler *)




(** C10: an operator other than the empty string and [AND], whatever
    string it is, makes a level fold its predicates with OR; and no
    operator is rejected: replacing the operators of a tree, at every
    level and by anything, changes neither whether it compiles nor the
    error it fails with. *)
Theorem buildFilterExpression_other_operator :
  (forall conds groups op leaves nested first rest,
     op <> "" -> op <> AND ->
     Forall2 (fun c p => buildSingleCondition c = inr p) conds leaves ->
     Forall2 (fun g p => buildFilterExpression g = inr p) groups nested ->
     leaves ++ nested = first :: rest ->
     buildFilterExpression (mkWhere conds groups op)
     = inr (fold_left expression.Or rest first))
  /\
  (forall (f : LogicalOperator -> LogicalOperator) w,
     failure (buildFilterExpression (mapOperators f w))
     = failure (buildFilterExpression w)).
Proof.
  split.
  - intros conds groups op leaves nested first rest H1 H2 Hl Hn Hseq.
    rewrite buildFilterExpression_eq.
    apply buildConditions_Forall2 in Hl. apply buildGroups_Forall2 in Hn.
    rewrite Hl, Hn. cbn [bind]. rewrite Hseq. cbn [combineAll].
    f_equal. unfold combine. rewrite (isAnd_other op H1 H2).
    reflexivity.
  - exact buildFilterExpression_mapOperators.
Qed.

Lemma buildFilterExpression_other_operator_witness :
  buildFilterExpression
    (mkWhere [ mkWhereCondition "a" Equal (anyInt 1) anyNil [];
               mkWhereCondition "b" AttributeExists anyNil anyNil [] ]
             [] "XOR")
  = inr (expression.Or
           (expression.Equal (expression.Name "a") (expression.Value (anyInt 1)))
           (expression.AttributeExists (expression.Name "b"))).
Proof.
  apply (proj1 buildFilterExpression_other_operator
           [ mkWhereCondition "a" Equal (anyInt 1) anyNil [];
             mkWhereCondition "b" AttributeExists anyNil anyNil [] ]
           [] "XOR"
           [ expression.Equal (expression.Name "a") (expression.Value (anyInt 1));
             expression.AttributeExists (expression.Name "b") ]
           []
           (expression.Equal (expression.Name "a") (expression.Value (anyInt 1)))
           [ expression.AttributeExists (expression.Name "b") ]).
  - discriminate.
  - discriminate.
  - repeat constructor.
  - constructor.
  - reflexivity.
Defined.

(** ** The query executor *)

Section QueryProperties.

Context {World Ctx : Type}.
Variable Build : expression.Builder -> result expression.Expression.
Variable d : dynamodbService World Ctx.
Variable ctx : Ctx.

Implicit Types (opts : QueryOptions) (st : dynamodb.State World).

(** Every request that [Query] assembles has this shape. *)
Lemma queryInput_inr opts input :
  queryInput Build opts = inr input ->
  exists expr,
    input = {| dynamodb.TableName := Some (Table opts);
               dynamodb.IndexName := Some (Index opts);
               dynamodb.ExpressionAttributeNames := expression.Names expr;
               dynamodb.ExpressionAttributeValues := expression.Values expr;
               dynamodb.KeyConditionExpression := expression.KeyCondition expr;
               dynamodb.ProjectionExpression := expression.Projection expr;
               dynamodb.FilterExpression := expression.Filter expr;
               dynamodb.Limit := Some (Limit opts);
               dynamodb.ExclusiveStartKey := None |}.
Proof.
  unfold queryInput.
  destruct (Table opts =? ""); [discriminate|].
  destruct (Index opts =? ""); [discriminate|].
  destruct (Partition opts) as [partition|]; [|discriminate].
  destruct ((Key partition =? "") || isNil (Value partition)); [discriminate|].
  destruct (keyCondition opts partition) as [e|keyEx]; [discriminate|].
  cbn [bind].
  destruct (Where' opts) as [w|].
  - destruct (buildFilterExpression w) as [e|filterExpr]; [discriminate|].
    cbn [bind].
    destruct (Build _) as [e|expr]; [discriminate|]. cbn [bind].
    intros H. injection H as <-. exists expr. reflexivity.
  - cbn [bind].
    destruct (Build _) as [e|expr]; [discriminate|]. cbn [bind].
    intros H. injection H as <-. exists expr. reflexivity.
Qed.

(** Past the three checks, [queryInput] is the rest of its body. *)
Lemma queryInput_checked opts partition :
  Table opts <> "" -> Index opts <> "" ->
  Partition opts = Some partition ->
  Key partition <> "" -> Value partition <> anyNil ->
  queryInput Build opts =
  (keyEx <- keyCondition opts partition ;;
   let builder := expression.WithKeyCondition expression.NewBuilder keyEx in
   builder <-
     match Where' opts with
     | Some w =>
         match buildFilterExpression w with
         | inl _ => inl DynamoDBErrBuildFilterExpression
         | inr filterExpr => inr (expression.WithFilter builder filterExpr)
         end
     | None => inr builder
     end ;;
   expr <- Build builder ;;
   inr {| dynamodb.TableName := Some (Table opts);
          dynamodb.IndexName := Some (Index opts);
          dynamodb.ExpressionAttributeNames := expression.Names expr;
          dynamodb.ExpressionAttributeValues := expression.Values expr;
          dynamodb.KeyConditionExpression := expression.KeyCondition expr;
          dynamodb.ProjectionExpression := expression.Projection expr;
          dynamodb.FilterExpression := expression.Filter expr;
          dynamodb.Limit := Some (Limit opts);
          dynamodb.ExclusiveStartKey := None |}).
Proof.
  intros HT HI HP HK HV. unfold queryInput.
  rewrite (eqb_false_neq _ _ HT), (eqb_false_neq _ _ HI), HP.
  rewrite (eqb_false_neq _ _ HK), (isNil_false _ HV). reflexivity.
Qed.

(** A sort key without a name or without a value does not reach the
    [switch] on its operator. *)
Lemma keyCondition_incomplete_Sort opts sort partition :
  Sort opts = Some sort ->
  Key sort = "" \/ Value sort = anyNil ->
  keyCondition opts partition
  = inr (expression.KeyEqual (expression.Key (Key partition))
                             (expression.Value (Value partition))).
Proof.
  intros HS H. unfold keyCondition. rewrite HS.
  destruct H as [-> | ->]; [reflexivity|].
  rewrite andb_false_r. reflexivity.
Qed.

(** The loop of [Query] runs through the pages that are fetched with
    success. *)
Lemma paginate_fetches s k s' :
  fetches d ctx s k s' ->
  forall fuel,
    paginate (k + fuel) d ctx (fst (fst s)) (snd (fst s)) (snd s)
    = paginate fuel d ctx (fst (fst s')) (snd (fst s')) (snd s').
Proof.
  induction 1 as [s|p items st response p' st' k s Hmore Hnext _ IH];
    intros fuel; [reflexivity|].
  cbn [fst snd Nat.add paginate]. rewrite Hmore, Hnext. apply IH.
Qed.

(** One failing fetch ends the loop: the error is replaced by
    [DynamoDBErrQuery], the items gathered so far are dropped. *)
Lemma paginate_fetch_fails fuel p items st err w :
  dynamodb.HasMorePages p = true ->
  client d ctx (dynamodb.pageRequest p) (dynamodb.world st) = (inl err, w) ->
  paginate (S fuel) d ctx p items st
  = Some (([], Some DynamoDBErrQuery),
          {| dynamodb.world := w;
             dynamodb.sent := dynamodb.sent st ++ [dynamodb.pageRequest p] |}).
Proof.
  intros Hmore Hcall. cbn [paginate]. rewrite Hmore.
  unfold dynamodb.NextPage. rewrite Hmore, Hcall. reflexivity.
Qed.

(** C7: [Query] checks [Table], then [Index], then [Partition], and
    returns at the first check that fails: [DynamoDBErrTableNotSet] for
    an empty table, else [DynamoDBErrIndexNotSet] for an empty index,
    else [DynamoDBErrPartitionNotSet] for a partition that is nil or has
    an empty key or a nil value; each time with nil items and with the
    backend untouched (no request sent, the world as it was). *)
Theorem Query_validation fuel opts st :
  (Table opts = "" ->
   Query Build fuel d ctx opts st
   = Some (([], Some DynamoDBErrTableNotSet), st))
  /\
  (Table opts <> "" -> Index opts = "" ->
   Query Build fuel d ctx opts st
   = Some (([], Some DynamoDBErrIndexNotSet), st))
  /\
  (Table opts <> "" -> Index opts <> "" -> PartitionUnset (Partition opts) ->
   Query Build fuel d ctx opts st
   = Some (([], Some DynamoDBErrPartitionNotSet), st)).
Proof.
  unfold Query, queryInput. repeat split.
  - intros ->. reflexivity.
  - intros HT ->. rewrite (eqb_false_neq _ _ HT). reflexivity.
  - intros HT HI HP.
    rewrite (eqb_false_neq _ _ HT), (eqb_false_neq _ _ HI).
    destruct (Partition opts) as [partition|]; [|reflexivity].
    destruct HP as [-> | ->]; [reflexivity|].
    rewrite orb_true_r. reflexivity.
Qed.

(** C9: a sort key that is set but has an empty [Key] or a nil [Value]
    is ignored, whatever its operator: the key condition is the
    partition's equality alone, and [Query] does exactly what it does
    on the same options without a sort key. *)
Theorem Query_incomplete_Sort fuel opts sort st :
  Sort opts = Some sort ->
  Key sort = "" \/ Value sort = anyNil ->
  (forall partition,
     keyCondition opts partition
     = inr (expression.KeyEqual (expression.Key (Key partition))
                                (expression.Value (Value partition))))
  /\
  Query Build fuel d ctx opts st
  = Query Build fuel d ctx (withSort opts None) st.
Proof.
  intros HS H. split.
  - intros partition. apply (keyCondition_incomplete_Sort _ sort); assumption.
  - unfold Query, queryInput. cbn [withSort Table Index Partition Where' Limit].
    destruct (Table opts =? ""); [reflexivity|].
    destruct (Index opts =? ""); [reflexivity|].
    destruct (Partition opts) as [partition|]; [|reflexivity].
    destruct ((Key partition =? "") || isNil (Value partition)); [reflexivity|].
    rewrite (keyCondition_incomplete_Sort _ sort) by assumption.
    reflexivity.
Qed.

(** C5, as the code has it: when the options pass the three checks, the
    key condition is built and [Where] is set but does not compile,
    [Query] returns the sentinel [DynamoDBErrBuildFilterExpression]
    itself, with nil items and the backend untouched; the error of the
    compiler is dropped. *)
Theorem Query_filter_error fuel opts partition keyEx w e st :
  Table opts <> "" -> Index opts <> "" ->
  Partition opts = Some partition ->
  Key partition <> "" -> Value partition <> anyNil ->
  keyCondition opts partition = inr keyEx ->
  Where' opts = Some w ->
  buildFilterExpression w = inl e ->
  Query Build fuel d ctx opts st
  = Some (([], Some DynamoDBErrBuildFilterExpression), st).
Proof.
  intros HT HI HP HK HV Hkey HW He. unfold Query.
  rewrite (queryInput_checked opts partition HT HI HP HK HV).
  rewrite Hkey, HW, He. reflexivity.
Qed.

(** C1, what the code does: the request carries [opts.Limit] as it is,
    zero included ([defaultLimit] is never read); and the paginator
    sends a limit with each page request only when it is positive. *)
Theorem queryInput_Limit opts input :
  queryInput Build opts = inr input ->
  dynamodb.Limit input = Some (Limit opts)
  /\ dynamodb.Limit (dynamodb.pageRequest (dynamodb.NewQueryPaginator input))
     = if (0 <? Limit opts)%Z then Some (Limit opts) else None.
Proof.
  intros H. apply queryInput_inr in H. destruct H as [expr ->].
  split; reflexivity.
Qed.

(** C2, what the code does: [opts.Cursor] is never read.  [Query] runs
    the same with any cursor as with none, and the first page request
    carries no continuation token. *)
Theorem Query_ignores_Cursor fuel opts cursor st :
  Query Build fuel d ctx (withCursor opts cursor) st
  = Query Build fuel d ctx opts st
  /\
  (forall input,
     queryInput Build (withCursor opts cursor) = inr input ->
     dynamodb.ExclusiveStartKey
       (dynamodb.pageRequest (dynamodb.NewQueryPaginator input)) = None).
Proof.
  split; [reflexivity|].
  intros input H. apply queryInput_inr in H. destruct H as [expr ->].
  reflexivity.
Qed.

(** C8: when a page fetch fails after [k] pages fetched with success,
    [Query] returns [DynamoDBErrQuery] with nil items, whatever the
    pages before brought, and the failed request is the last one sent. *)
Theorem Query_page_fetch_fails opts input k p items st0 st err w fuel :
  queryInput Build opts = inr input ->
  fetches d ctx (dynamodb.NewQueryPaginator input, [], st0) k (p, items, st) ->
  dynamodb.HasMorePages p = true ->
  client d ctx (dynamodb.pageRequest p) (dynamodb.world st) = (inl err, w) ->
  (k < fuel)%nat ->
  Query Build fuel d ctx opts st0
  = Some (([], Some DynamoDBErrQuery),
          {| dynamodb.world := w;
             dynamodb.sent := dynamodb.sent st ++ [dynamodb.pageRequest p] |}).
Proof.
  intros Hin Hrun Hmore Hcall Hfuel. unfold Query. rewrite Hin.
  replace fuel with (k + S (fuel - k - 1))%nat by lia.
  rewrite (paginate_fetches _ _ _ Hrun). cbn [fst snd].
  apply (paginate_fetch_fails _ p items st err w); assumption.
Qed.

(** C4, as the code has it: [Query] has no check of the context of its
    own; it hands the context to every page fetch.  With the context
    cancelled (or past its deadline) between two fetches, [Query] still
    makes the call for the next page; when the client answers that call
    with the context's error, [Query] returns [DynamoDBErrQuery], not
    the context's error, with nil items, and makes no call after it. *)
Theorem Query_cancelled_between_pages
  opts input k p items st0 st cerr w fuel :
  cerr = contextCanceled \/ cerr = contextDeadlineExceeded ->
  queryInput Build opts = inr input ->
  fetches d ctx (dynamodb.NewQueryPaginator input, [], st0) (S k) (p, items, st) ->
  dynamodb.HasMorePages p = true ->
  client d ctx (dynamodb.pageRequest p) (dynamodb.world st) = (inl cerr, w) ->
  (S k < fuel)%nat ->
  Query Build fuel d ctx opts st0
  = Some (([], Some DynamoDBErrQuery),
          {| dynamodb.world := w;
             dynamodb.sent := dynamodb.sent st ++ [dynamodb.pageRequest p] |})
  /\ DynamoDBErrQuery <> cerr.
Proof.
  intros Hc Hin Hrun Hmore Hcall Hfuel. split.
  - unfold Query. rewrite Hin.
    replace fuel with (S k + S (fuel - S k - 1))%nat by lia.
    rewrite (paginate_fetches _ _ _ Hrun). cbn [fst snd].
    apply (paginate_fetch_fails _ p items st cerr w); assumption.
  - destruct Hc as [-> | ->]; discriminate.
Qed.

End QueryProperties.

(** ** Runs on the synthetic SDK *)

Lemma Query_validation_witness :
  let st := Synthetic.start [Synthetic.page1] in
  Query Synthetic.Build 0 Synthetic.service None
    {| Table := ""; Index := ""; Limit := 0; Cursor := "";
       Partition := None; Sort := None; Where' := None |} st
  = Some (([], Some DynamoDBErrTableNotSet), st)
  /\ Query Synthetic.Build 0 Synthetic.service None
       {| Table := "table"; Index := ""; Limit := 0; Cursor := "";
          Partition := None; Sort := None; Where' := None |} st
     = Some (([], Some DynamoDBErrIndexNotSet), st)
  /\ Query Synthetic.Build 0 Synthetic.service None
       {| Table := "table"; Index := "Status"; Limit := 0; Cursor := "";
          Partition := Some {| Key := "Status"; Value := anyNil;
                               Operator := Equal |};
          Sort := None; Where' := None |} st
     = Some (([], Some DynamoDBErrPartitionNotSet), st).
Proof.
  cbv zeta. split; [|split].
  - apply (proj1 (Query_validation Synthetic.Build Synthetic.service None 0 _ _)).
    reflexivity.
  - apply (proj1 (proj2 (Query_validation Synthetic.Build Synthetic.service None 0 _ _)));
      [discriminate | reflexivity].
  - apply (proj2 (proj2 (Query_validation Synthetic.Build Synthetic.service None 0 _ _)));
      [discriminate | discriminate | right; reflexivity].
Defined.

Lemma Query_incomplete_Sort_witness :
  let opts :=
    withSort Synthetic.cliOptions
      (Some {| Key := ""; Value := anyString "2020"; Operator := BeginsWith |}) in
  let st := Synthetic.start [Synthetic.page1; Synthetic.page2; Synthetic.page3] in
  (forall partition,
     keyCondition opts partition
     = inr (expression.KeyEqual (expression.Key (Key partition))
                                (expression.Value (Value partition))))
  /\ Query Synthetic.Build 4 Synthetic.service None opts st
     = Query Synthetic.Build 4 Synthetic.service None (withSort opts None) st.
Proof.
  cbv zeta.
  apply (Query_incomplete_Sort Synthetic.Build Synthetic.service None 4
           (withSort Synthetic.cliOptions
              (Some {| Key := ""; Value := anyString "2020";
                       Operator := BeginsWith |}))
           {| Key := ""; Value := anyString "2020"; Operator := BeginsWith |}).
  - reflexivity.
  - left. reflexivity.
Defined.

Lemma Query_filter_error_witness :
  let st := Synthetic.start [Synthetic.page1] in
  Query Synthetic.Build 2 Synthetic.service None
    (withWhere Synthetic.cliOptions (Some Synthetic.likeWhere)) st
  = Some (([], Some DynamoDBErrBuildFilterExpression), st).
Proof.
  cbv zeta.
  apply (Query_filter_error Synthetic.Build Synthetic.service None 2
           (withWhere Synthetic.cliOptions (Some Synthetic.likeWhere))
           {| Key := "Status"; Value := anyString "active"; Operator := "" |}
           (expression.KeyEqual (expression.Key "Status")
                                (expression.Value (anyString "active")))
           Synthetic.likeWhere
           (errorString "unsupported operator: LIKE"));
    try reflexivity; discriminate.
Defined.

(** C5 as stated fails: an empty filter and a filter with an unknown
    operator fail to compile with different errors, and [Query] returns
    the same value for both, so that the failure cannot be told from what
    is returned; and before the filter is looked at, the three checks
    come first. *)
Lemma Query_drops_compile_error :
  let st := Synthetic.start [Synthetic.page1] in
  buildFilterExpression Synthetic.emptyWhere
  = inl (errorString "no conditions provided")
  /\ buildFilterExpression Synthetic.likeWhere
     = inl (errorString "unsupported operator: LIKE")
  /\ Query Synthetic.Build 2 Synthetic.service None
       (withWhere Synthetic.cliOptions (Some Synthetic.emptyWhere)) st
     = Some (([], Some DynamoDBErrBuildFilterExpression), st)
  /\ Query Synthetic.Build 2 Synthetic.service None
       (withWhere Synthetic.cliOptions (Some Synthetic.likeWhere)) st
     = Some (([], Some DynamoDBErrBuildFilterExpression), st)
  /\ Query Synthetic.Build 2 Synthetic.service None
       (withTable (withWhere Synthetic.cliOptions (Some Synthetic.likeWhere)) "") st
     = Some (([], Some DynamoDBErrTableNotSet), st).
Proof. cbv zeta. repeat split. Qed.

(** The query of the command-line tool leaves [Limit] at zero: the
    request assembled for it carries the limit 0, not [defaultLimit],
    and its page requests carry no limit. *)
Lemma queryInput_Limit_witness :
  exists input,
    queryInput Synthetic.Build Synthetic.cliOptions = inr input
    /\ dynamodb.Limit input = Some 0%Z
    /\ dynamodb.Limit input <> Some defaultLimit
    /\ dynamodb.Limit (dynamodb.pageRequest (dynamodb.NewQueryPaginator input))
       = None.
Proof.
  eexists. split; [reflexivity|].
  destruct (queryInput_Limit Synthetic.Build Synthetic.cliOptions _ eq_refl)
    as [H1 H2].
  split; [exact H1|]. split; [|exact H2].
  rewrite H1. discriminate.
Defined.

(** With a cursor, the run is the run without one, and the request of
    the first page has no token. *)
Lemma Query_ignores_Cursor_witness :
  let opts := withCursor Synthetic.cliOptions "eyJpZCI6IjMifQ==" in
  let st := Synthetic.start [Synthetic.page1; Synthetic.page2; Synthetic.page3] in
  Query Synthetic.Build 4 Synthetic.service None opts st
  = Query Synthetic.Build 4 Synthetic.service None Synthetic.cliOptions st
  /\ queryInput Synthetic.Build opts = inr Synthetic.cliInput
  /\ dynamodb.ExclusiveStartKey
       (dynamodb.pageRequest (dynamodb.NewQueryPaginator Synthetic.cliInput))
     = None.
Proof.
  cbv zeta.
  destruct (Query_ignores_Cursor Synthetic.Build Synthetic.service None 4
              Synthetic.cliOptions "eyJpZCI6IjMifQ=="
              (Synthetic.start [Synthetic.page1; Synthetic.page2; Synthetic.page3]))
    as [H1 H2].
  split; [exact H1|]. split; [reflexivity|].
  apply H2. reflexivity.
Defined.

(** The second of three pages fails: nothing of the first page is
    returned, and the third page is left with the backend. *)
Lemma Query_page_fetch_fails_witness :
  Query Synthetic.Build 4 Synthetic.service None Synthetic.cliOptions
    (Synthetic.start [Synthetic.page1; inl (sdkError "throttled"); Synthetic.page3])
  = Some (([], Some DynamoDBErrQuery),
          {| dynamodb.world :=
               {| Synthetic.script := [Synthetic.page3]; Synthetic.served := 1 |};
             dynamodb.sent :=
               [ Synthetic.cliRequest None;
                 Synthetic.cliRequest (Some (Synthetic.item "id" "3")) ] |}).
Proof.
  apply (Query_page_fetch_fails Synthetic.Build Synthetic.service None
            Synthetic.cliOptions Synthetic.cliInput 1
            (Synthetic.cliPaginator (Some (Synthetic.item "id" "3")))
            [Synthetic.item "id" "1"; Synthetic.item "id" "2"; Synthetic.item "id" "3"]
            (Synthetic.start [Synthetic.page1; inl (sdkError "throttled");
                              Synthetic.page3])
            {| dynamodb.world :=
                 {| Synthetic.script := [inl (sdkError "throttled"); Synthetic.page3];
                    Synthetic.served := 1 |};
               dynamodb.sent := [Synthetic.cliRequest None] |}
            (sdkError "throttled")
            {| Synthetic.script := [Synthetic.page3]; Synthetic.served := 1 |} 4).
  - reflexivity.
  - eapply fetches_page; [reflexivity | reflexivity | apply fetches_none].
  - reflexivity.
  - reflexivity.
  - lia.
Defined.

(** The caller cancels after the first of three pages, and the client
    honours the context. *)
Lemma Query_cancelled_between_pages_witness :
  Query Synthetic.Build 4 Synthetic.service (Some 1%nat) Synthetic.cliOptions
    (Synthetic.start [Synthetic.page1; Synthetic.page2; Synthetic.page3])
  = Some (([], Some DynamoDBErrQuery),
          {| dynamodb.world :=
               {| Synthetic.script := [Synthetic.page2; Synthetic.page3];
                  Synthetic.served := 1 |};
             dynamodb.sent :=
               [ Synthetic.cliRequest None;
                 Synthetic.cliRequest (Some (Synthetic.item "id" "3")) ] |})
  /\ DynamoDBErrQuery <> contextCanceled.
Proof.
  apply (Query_cancelled_between_pages Synthetic.Build Synthetic.service
            (Some 1%nat) Synthetic.cliOptions Synthetic.cliInput 0
            (Synthetic.cliPaginator (Some (Synthetic.item "id" "3")))
            [Synthetic.item "id" "1"; Synthetic.item "id" "2"; Synthetic.item "id" "3"]
            (Synthetic.start [Synthetic.page1; Synthetic.page2; Synthetic.page3])
            {| dynamodb.world :=
                 {| Synthetic.script := [Synthetic.page2; Synthetic.page3];
                    Synthetic.served := 1 |};
               dynamodb.sent := [Synthetic.cliRequest None] |}
            contextCanceled
            {| Synthetic.script := [Synthetic.page2; Synthetic.page3];
               Synthetic.served := 1 |} 4).
  - left. reflexivity.
  - reflexivity.
  - eapply fetches_page; [reflexivity | reflexivity | apply fetches_none].
  - reflexivity.
  - reflexivity.
  - lia.
Defined.

(** C4 as stated fails.  Three pages are ready and the caller cancels
    after the first.  In the world reached then, the context is
    cancelled; with a client that honours the context, [Query] makes the
    call for the second page all the same and returns [DynamoDBErrQuery],
    which is not the context's error; with a client that does not look at
    the context, [Query] fetches all three pages and returns their eight
    items without an error. *)
Lemma Query_cancelled_after_first_page :
  let st := Synthetic.start [Synthetic.page1; Synthetic.page2; Synthetic.page3] in
  let w1 := {| Synthetic.script := [Synthetic.page2; Synthetic.page3];
               Synthetic.served := 1 |} in
  Synthetic.Err (Some 1%nat) w1 = Some contextCanceled
  /\ Query Synthetic.Build 4 Synthetic.service (Some 1%nat)
       Synthetic.cliOptions st
     = Some (([], Some DynamoDBErrQuery),
             {| dynamodb.world := w1;
                dynamodb.sent :=
                  [ Synthetic.cliRequest None;
                    Synthetic.cliRequest (Some (Synthetic.item "id" "3")) ] |})
  /\ Some DynamoDBErrQuery <> Synthetic.Err (Some 1%nat) w1
  /\ Query Synthetic.Build 4 (mkService Synthetic.QueryUnaware) (Some 1%nat)
       Synthetic.cliOptions st
     = Some (([ Synthetic.item "id" "1"; Synthetic.item "id" "2";
                Synthetic.item "id" "3"; Synthetic.item "id" "4";
                Synthetic.item "id" "5"; Synthetic.item "id" "6";
                Synthetic.item "id" "7"; Synthetic.item "id" "8" ], None),
             {| dynamodb.world := {| Synthetic.script := []; Synthetic.served := 3 |};
                dynamodb.sent :=
                  [ Synthetic.cliRequest None;
                    Synthetic.cliRequest (Some (Synthetic.item "id" "3"));
                    Synthetic.cliRequest (Some (Synthetic.item "id" "6")) ] |}).
Proof.
  cbv zeta. split; [reflexivity|]. split; [reflexivity|].
  split; [discriminate | reflexivity].
Qed.

(** * Further properties *)

(** ** The condition compiler, operator by operator *)

(** Case analysis on the operator of a condition, in the order of the
    [switch]: one goal per listed operator, one for the rest. *)
Ltac by_operator op :=
  repeat match goal with
         | |- context [String.eqb op ?c] =>
             destruct (String.eqb_spec op c); [subst op |]
         end.

(** X1: an operator outside the twelve listed ones, whatever its
    spelling, is refused with an error that carries it. *)
Theorem buildSingleCondition_unsupported (cond : WhereCondition) :
  isWhereOperator (condOperator cond) = false ->
  buildSingleCondition cond
  = inl (errorString ("unsupported operator: " ++ condOperator cond)%string).
Proof.
  destruct cond as [f op v v2 vs]. cbn [condOperator].
  unfold isWhereOperator, WhereOperators, buildSingleCondition.
  cbn [existsb condOperator]. intros H.
  by_operator op; try (vm_compute in H; discriminate H).
  reflexivity.
Qed.

Lemma buildSingleCondition_unsupported_witness :
  buildSingleCondition
    {| Field := "title"; condOperator := "contains"; condValue := anyString "x";
       Value2 := anyNil; Values := [] |}
  = inl (errorString "unsupported operator: contains").
Proof.
  apply (buildSingleCondition_unsupported
           {| Field := "title"; condOperator := "contains";
              condValue := anyString "x"; Value2 := anyNil; Values := [] |}).
  reflexivity.
Defined.

(** X2: a condition compiles exactly when its operator is one of the
    twelve and, for [In], there is at least one operand; nothing else
    about it is checked. *)
Theorem buildSingleCondition_compilable (cond : WhereCondition) :
  failure (buildSingleCondition cond) = None <-> compilable cond = true.
Proof.
  destruct cond as [f op v v2 vs].
  unfold compilable, isWhereOperator, WhereOperators, buildSingleCondition.
  cbn [existsb condOperator Values].
  by_operator op; try (vm_compute; tauto).
  - destruct vs; vm_compute; split; congruence.
  - cbn. split; discriminate.
Qed.

(** X3: [Contains] and [BeginsWith] see the value through its text only:
    two values that print alike, of whatever type, give the same
    predicate. *)
Theorem buildSingleCondition_text (cond : WhereCondition) (v1 v2 : any) :
  condOperator cond = Contains \/ condOperator cond = BeginsWith ->
  Sprint v1 = Sprint v2 ->
  buildSingleCondition (withValue cond v1)
  = buildSingleCondition (withValue cond v2).
Proof.
  intros Hop Htext. unfold buildSingleCondition.
  cbn [withValue condOperator condValue Field].
  destruct Hop as [-> | ->]; cbn; rewrite Htext; reflexivity.
Qed.

Lemma buildSingleCondition_text_witness :
  buildSingleCondition
    {| Field := "year"; condOperator := BeginsWith; condValue := anyInt 20;
       Value2 := anyNil; Values := [] |}
  = buildSingleCondition
      {| Field := "year"; condOperator := BeginsWith; condValue := anyString "20";
         Value2 := anyNil; Values := [] |}.
Proof.
  apply (buildSingleCondition_text
           {| Field := "year"; condOperator := BeginsWith; condValue := anyNil;
              Value2 := anyNil; Values := [] |} (anyInt 20) (anyString "20")).
  - right. reflexivity.
  - reflexivity.
Defined.

(** X4: the fields an operator has no use for are not read: [Value2]
    matters to [Between] only, [Values] to [In] only, and [Value] not at
    all to [In], [AttributeExists] and [AttributeNotExists]. *)
Theorem buildSingleCondition_unused (cond : WhereCondition) :
  (condOperator cond <> Between ->
   forall v, buildSingleCondition (withValue2 cond v) = buildSingleCondition cond)
  /\
  (condOperator cond <> In ->
   forall vs, buildSingleCondition (withValues cond vs) = buildSingleCondition cond)
  /\
  (condOperator cond = In \/ condOperator cond = AttributeExists
   \/ condOperator cond = AttributeNotExists ->
   forall v, buildSingleCondition (withValue cond v) = buildSingleCondition cond).
Proof.
  destruct cond as [f op v0 v2 vs].
  unfold buildSingleCondition.
  cbn [withValue withValue2 withValues condOperator condValue Field Value2 Values].
  repeat split.
  - intros H v. by_operator op; try reflexivity. congruence.
  - intros H vs'. by_operator op; try reflexivity. congruence.
  - intros [-> | [-> | ->]] v; reflexivity.
Qed.

Lemma buildSingleCondition_unused_witness :
  buildSingleCondition
    {| Field := "year"; condOperator := AttributeExists; condValue := anyInt 1;
       Value2 := anyInt 2; Values := [anyInt 3] |}
  = buildSingleCondition
      {| Field := "year"; condOperator := AttributeExists; condValue := anyNil;
         Value2 := anyInt 2; Values := [anyInt 3] |}.
Proof.
  apply (proj2 (proj2 (buildSingleCondition_unused
                         {| Field := "year"; condOperator := AttributeExists;
                            condValue := anyNil; Value2 := anyInt 2;
                            Values := [anyInt 3] |}))).
  right. left. reflexivity.
Defined.

(** ** The Where compiler, as a whole *)

Lemma buildConditions_first_error pre cond post leaves e :
  Forall2 (fun c p => buildSingleCondition c = inr p) pre leaves ->
  buildSingleCondition cond = inl e ->
  buildConditions (pre ++ cond :: post) = inl e.
Proof.
  intros Hpre Hc. induction Hpre as [|c p pre leaves Hcp _ IH]; cbn.
  - rewrite Hc. reflexivity.
  - rewrite Hcp. cbn. rewrite IH. reflexivity.
Qed.

Lemma buildGroups_first_error pre g post nested e :
  Forall2 (fun g p => buildFilterExpression g = inr p) pre nested ->
  buildFilterExpression g = inl e ->
  buildGroups (pre ++ g :: post) = inl e.
Proof.
  intros Hpre Hg.
  induction Hpre as [|g' p pre nested Hgp _ IH]; cbn [app buildGroups].
  - rewrite Hg. reflexivity.
  - rewrite Hgp. cbn [bind]. rewrite IH. reflexivity.
Qed.

Lemma buildConditions_length conds leaves :
  buildConditions conds = inr leaves -> length leaves = length conds.
Proof.
  intros H. apply buildConditions_Forall2 in H.
  symmetry. exact (Forall2_length H).
Qed.

Lemma buildGroups_length groups nested :
  buildGroups groups = inr nested -> length nested = length groups.
Proof.
  intros H. apply buildGroups_Forall2 in H.
  symmetry. exact (Forall2_length H).
Qed.

Lemma buildConditions_compilable conds :
  failure (buildConditions conds) = None <-> forallb compilable conds = true.
Proof.
  induction conds as [|c conds IH]; cbn [buildConditions forallb].
  - split; reflexivity.
  - rewrite andb_true_iff, <- IH, <- buildSingleCondition_compilable.
    destruct (buildSingleCondition c) as [e|p]; cbn.
    + split; [discriminate | intros [H _]; discriminate H].
    + destruct (buildConditions conds) as [e|ps]; cbn; tauto.
Qed.

Lemma buildGroups_wellFormed groups :
  Forall (fun g => failure (buildFilterExpression g) = None
                   <-> wellFormed g = true) groups ->
  failure (buildGroups groups) = None <-> forallb wellFormed groups = true.
Proof.
  induction 1 as [|g groups Hg _ IH]; cbn [buildGroups forallb].
  - split; reflexivity.
  - rewrite andb_true_iff, <- IH, <- Hg.
    destruct (buildFilterExpression g) as [e|p]; cbn.
    + split; [discriminate | intros [H _]; discriminate H].
    + destruct (buildGroups groups) as [e|ps]; cbn; tauto.
Qed.

Lemma combine_class op op' acc c :
  isAnd op' = isAnd op -> combine op' acc c = combine op acc c.
Proof. intros H. unfold combine. rewrite H. reflexivity. Qed.

Lemma combineAll_class op op' l :
  isAnd op' = isAnd op -> combineAll op' l = combineAll op l.
Proof.
  intros H. destruct l as [|first rest]; [reflexivity|]. cbn [combineAll].
  f_equal. revert first.
  induction rest as [|c rest IH]; intros first; [reflexivity|].
  cbn [fold_left]. rewrite (combine_class op op' first c H). apply IH.
Qed.

Lemma buildSingleCondition_conjuncts cond p :
  buildSingleCondition cond = inr p -> conjuncts p = [p].
Proof.
  destruct cond as [f op v v2 vs]. unfold buildSingleCondition.
  cbn [condOperator Values].
  by_operator op; cbn; try (intros H; injection H as <-; reflexivity).
  - destruct vs; [discriminate|]. intros H; injection H as <-; reflexivity.
  - discriminate.
Qed.

Lemma conjuncts_fold op rest first :
  conjuncts (fold_left (combine op) rest first)
  = conjuncts first ++ flat_map conjuncts rest.
Proof.
  revert first. induction rest as [|c rest IH]; intros first; cbn [fold_left flat_map].
  - rewrite app_nil_r. reflexivity.
  - rewrite IH. unfold combine.
    destruct (isAnd op); cbn [conjuncts]; rewrite <- app_assoc; reflexivity.
Qed.

Lemma conjuncts_leaves conds leaves :
  Forall2 (fun c p => buildSingleCondition c = inr p) conds leaves ->
  flat_map conjuncts leaves = leaves.
Proof.
  induction 1 as [|c p conds leaves Hc _ IH]; cbn [flat_map]; [reflexivity|].
  rewrite (buildSingleCondition_conjuncts _ _ Hc), IH. reflexivity.
Qed.

(** X5: the compiler stops at the first failure and returns its error as
    it is: the conditions of a node are tried first, left to right, then
    its groups, left to right; what follows the failure, and the
    operator, do not matter. *)
Theorem buildFilterExpression_first_error :
  (forall pre cond post groups op leaves e,
     Forall2 (fun c p => buildSingleCondition c = inr p) pre leaves ->
     buildSingleCondition cond = inl e ->
     buildFilterExpression (mkWhere (pre ++ cond :: post) groups op) = inl e)
  /\
  (forall conds pre g post op leaves nested e,
     Forall2 (fun c p => buildSingleCondition c = inr p) conds leaves ->
     Forall2 (fun g p => buildFilterExpression g = inr p) pre nested ->
     buildFilterExpression g = inl e ->
     buildFilterExpression (mkWhere conds (pre ++ g :: post) op) = inl e).
Proof.
  split.
  - intros pre cond post groups op leaves e Hpre Hc.
    rewrite buildFilterExpression_eq.
    rewrite (buildConditions_first_error pre cond post leaves e Hpre Hc).
    reflexivity.
  - intros conds pre g post op leaves nested e Hl Hpre Hg.
    rewrite buildFilterExpression_eq.
    apply buildConditions_Forall2 in Hl. rewrite Hl. cbn [bind].
    rewrite (buildGroups_first_error pre g post nested e Hpre Hg).
    reflexivity.
Qed.

Lemma buildFilterExpression_first_error_witness :
  buildFilterExpression
    (mkWhere [ mkWhereCondition "a" Equal (anyInt 1) anyNil [] ]
             [ mkWhere [] [] OR;
               mkWhere [ mkWhereCondition "b" "LIKE" (anyInt 2) anyNil [] ] [] "" ]
             AND)
  = inl (errorString "no conditions provided").
Proof.
  apply (proj2 buildFilterExpression_first_error
           [ mkWhereCondition "a" Equal (anyInt 1) anyNil [] ]
           [] (mkWhere [] [] OR)
           [ mkWhere [ mkWhereCondition "b" "LIKE" (anyInt 2) anyNil [] ] [] "" ]
           AND
           [ expression.Equal (expression.Name "a") (expression.Value (anyInt 1)) ]
           []).
  - repeat constructor.
  - constructor.
  - reflexivity.
Defined.

(** X6: a node with a single predicate compiles to that predicate, its
    operator unused; so a group wrapped alone in a node compiles, or
    fails, exactly as the group does. *)
Theorem buildFilterExpression_single :
  (forall cond op,
     buildFilterExpression (mkWhere [cond] [] op) = buildSingleCondition cond)
  /\
  (forall g op,
     buildFilterExpression (mkWhere [] [g] op) = buildFilterExpression g).
Proof.
  split.
  - intros cond op. rewrite buildFilterExpression_eq. cbn [buildConditions].
    destruct (buildSingleCondition cond) as [e|p]; reflexivity.
  - intros g op. rewrite buildFilterExpression_eq. cbn [buildConditions buildGroups bind].
    destruct (buildFilterExpression g) as [e|p]; reflexivity.
Qed.

(** X7: a tree compiles exactly when it is well formed: every condition
    at every level is acceptable and no node, the root included, is
    without conditions and without groups. *)
Theorem buildFilterExpression_wellFormed (w : Where) :
  failure (buildFilterExpression w) = None <-> wellFormed w = true.
Proof.
  induction w as [conds groups op IH] using Where_ind'.
  rewrite buildFilterExpression_eq. cbn [wellFormed].
  rewrite !andb_true_iff, <- buildConditions_compilable,
    <- (buildGroups_wellFormed groups IH).
  destruct (buildConditions conds) as [e|leaves] eqn:Hl; cbn.
  - split; [discriminate | intros [[H _] _]; discriminate H].
  - destruct (buildGroups groups) as [e|nested] eqn:Hn; cbn.
    + split; [discriminate | intros [[_ H] _]; discriminate H].
    + apply buildConditions_length in Hl. apply buildGroups_length in Hn.
      destruct leaves, conds; try discriminate Hl;
        destruct nested, groups; try discriminate Hn; cbn; intuition congruence.
Qed.

(** X8: compiling loses no condition, adds none and keeps their order:
    the predicates the result is made of are, one for one, the compiled
    conditions of the tree, a node's own before those of its groups. *)
Theorem buildFilterExpression_conjuncts (w : Where) c :
  buildFilterExpression w = inr c ->
  Forall2 (fun cond p => buildSingleCondition cond = inr p)
          (allConditions w) (conjuncts c).
Proof.
  revert c. induction w as [conds groups op IH] using Where_ind'. intros c.
  rewrite buildFilterExpression_eq. cbn [allConditions].
  destruct (buildConditions conds) as [e|leaves] eqn:Hl; [discriminate|].
  cbn [bind].
  destruct (buildGroups groups) as [e|nested] eqn:Hn; [discriminate|].
  cbn [bind]. apply buildConditions_Forall2 in Hl.
  assert (Hg : Forall2 (fun cond p => buildSingleCondition cond = inr p)
                 (flat_map allConditions groups) (flat_map conjuncts nested)).
  { apply buildGroups_Forall2 in Hn. clear Hl.
    induction Hn as [|g p groups nested Hgp _ IHn]; cbn [flat_map].
    - constructor.
    - inversion IH as [|? ? Hg Hgs]; subst.
      apply Forall2_app; [apply Hg; exact Hgp | apply IHn; exact Hgs]. }
  destruct (leaves ++ nested) as [|first rest] eqn:Hseq; [discriminate|].
  cbn [combineAll]. intros H. injection H as <-.
  rewrite conjuncts_fold.
  change (conjuncts first ++ flat_map conjuncts rest)
    with (flat_map conjuncts (first :: rest)).
  rewrite <- Hseq, flat_map_app, (conjuncts_leaves conds leaves Hl).
  apply Forall2_app; assumption.
Qed.

Lemma buildFilterExpression_conjuncts_witness :
  Forall2 (fun cond p => buildSingleCondition cond = inr p)
    [ mkWhereCondition "c" Equal (anyInt 3) anyNil [];
      mkWhereCondition "a" Equal (anyInt 1) anyNil [];
      mkWhereCondition "b" Equal (anyInt 2) anyNil [] ]
    [ expression.Equal (expression.Name "c") (expression.Value (anyInt 3));
      expression.Equal (expression.Name "a") (expression.Value (anyInt 1));
      expression.Equal (expression.Name "b") (expression.Value (anyInt 2)) ].
Proof.
  apply (buildFilterExpression_conjuncts
           (mkWhere
              [ mkWhereCondition "c" Equal (anyInt 3) anyNil [] ]
              [ mkWhere [ mkWhereCondition "a" Equal (anyInt 1) anyNil [];
                          mkWhereCondition "b" Equal (anyInt 2) anyNil [] ] [] OR ]
              AND)
           (expression.And
              (expression.Equal (expression.Name "c") (expression.Value (anyInt 3)))
              (expression.Or
                 (expression.Equal (expression.Name "a") (expression.Value (anyInt 1)))
                 (expression.Equal (expression.Name "b") (expression.Value (anyInt 2)))))).
  reflexivity.
Defined.

(** X9: an operator counts only as AND (the empty string and ["AND"])
    or as not AND: respelling the operators of a tree, at every level,
    without moving any across that line leaves the result as it is.  The
    comparison is exact, so ["and"] and [" AND"] are on the OR side. *)
Theorem buildFilterExpression_operator_class
  (f : LogicalOperator -> LogicalOperator) (w : Where) :
  (forall op, isAnd (f op) = isAnd op) ->
  buildFilterExpression (mapOperators f w) = buildFilterExpression w.
Proof.
  intros Hf. induction w as [conds groups op IH] using Where_ind'.
  cbn [mapOperators]. rewrite !buildFilterExpression_eq.
  assert (Hg : buildGroups (map (mapOperators f) groups) = buildGroups groups).
  { induction IH as [|g groups Hg _ IHg]; [reflexivity|].
    cbn [map buildGroups]. rewrite Hg, IHg. reflexivity. }
  rewrite Hg.
  destruct (buildConditions conds) as [e|leaves]; [reflexivity|]. cbn [bind].
  destruct (buildGroups groups) as [e|nested]; [reflexivity|]. cbn [bind].
  apply combineAll_class. apply Hf.
Qed.

Lemma buildFilterExpression_operator_class_witness :
  let w := mkWhere [ mkWhereCondition "a" Equal (anyInt 1) anyNil [];
                     mkWhereCondition "b" Equal (anyInt 2) anyNil [] ]
                   [ mkWhere [ mkWhereCondition "c" Equal (anyInt 3) anyNil [];
                               mkWhereCondition "d" Equal (anyInt 4) anyNil [] ]
                             [] "" ]
                   "and" in
  buildFilterExpression (mapOperators (fun op => if isAnd op then AND else OR) w)
  = buildFilterExpression w.
Proof.
  cbv zeta.
  apply (buildFilterExpression_operator_class
           (fun op => if isAnd op then AND else OR)).
  intros op. destruct (isAnd op); reflexivity.
Defined.

(** ** The query executor, past the claims *)

Section MoreQueryProperties.

Context {World Ctx : Type}.
Variable Build : expression.Builder -> result expression.Expression.
Variable d : dynamodbService World Ctx.
Variable ctx : Ctx.

Implicit Types (opts : QueryOptions) (st : dynamodb.State World).

Lemma pagesFetched_fetches s responses s' :
  pagesFetched d ctx s responses s' ->
  forall items,
    fetches d ctx (fst s, items, snd s) (length responses)
      (fst s', items ++ concat (map dynamodb.Items responses), snd s').
Proof.
  induction 1 as [s|p st response p' st' responses s Hmore Hnext _ IH];
    intros items; cbn [length map concat fst snd].
  - rewrite app_nil_r. constructor.
  - apply (fetches_page d ctx p items st response p' st'); [assumption..|].
    rewrite app_assoc. apply IH.
Qed.

(** An error that comes out of the loop is [DynamoDBErrQuery], with no
    items. *)
Lemma paginate_error fuel p items st its e st' :
  paginate fuel d ctx p items st = Some ((its, Some e), st') ->
  its = [] /\ e = DynamoDBErrQuery.
Proof.
  revert p items st. induction fuel as [|fuel IH]; intros p items st;
    cbn [paginate]; [discriminate|].
  destruct (dynamodb.HasMorePages p); [|discriminate].
  destruct (dynamodb.NextPage (client d) ctx p st) as [[err|[response p']] st1].
  - intros H. injection H as <- <- <-. split; reflexivity.
  - apply IH.
Qed.


Lemma pagesFetched_requests input s responses s' :
  pagesFetched d ctx s responses s' ->
  dynamodb.params (fst s) = input ->
  dynamodb.limit (fst s)
  = match dynamodb.Limit input with Some n => n | None => 0%Z end ->
  dynamodb.sent (snd s')
  = dynamodb.sent (snd s)
    ++ map (requestFrom input)
         (firstn (length responses)
            (dynamodb.nextToken (fst s)
             :: map dynamodb.LastEvaluatedKey responses)).
Proof.
  induction 1 as [s|p st response p' st' responses s Hmore Hnext _ IH];
    cbn [fst snd length firstn map]; intros Hp Hl.
  - rewrite app_nil_r. reflexivity.
  - unfold dynamodb.NextPage in Hnext. rewrite Hmore in Hnext. cbn [negb] in Hnext.
    destruct (client d ctx (dynamodb.pageRequest p) (dynamodb.world st))
      as [[err|reply] w]; [discriminate|].
    injection Hnext as <- <- <-.
    cbn [fst snd dynamodb.params dynamodb.limit dynamodb.nextToken dynamodb.sent] in IH.
    rewrite (IH Hp Hl), <- app_assoc. cbn [app]. do 2 f_equal.
    unfold requestFrom, dynamodb.pageRequest. cbn. rewrite Hp, <- Hl. reflexivity.
Qed.

(** X10: a sort key with a name and a value is taken with the operator
    ["="] only, and then joined to the partition by AND; with any other
    operator, the unset one included, [Query] fails with an error that
    names it, before the filter is compiled and the backend contacted. *)
Theorem Query_sort_operator fuel opts partition sort st :
  Sort opts = Some sort ->
  Key sort <> "" -> Value sort <> anyNil ->
  (Operator sort = Equal ->
   keyCondition opts partition
   = inr (expression.KeyAnd
            (expression.KeyEqual (expression.Key (Key partition))
                                 (expression.Value (Value partition)))
            (expression.KeyEqual (expression.Key (Key sort))
                                 (expression.Value (Value sort)))))
  /\
  (Operator sort <> Equal ->
   Table opts <> "" -> Index opts <> "" ->
   Partition opts = Some partition ->
   Key partition <> "" -> Value partition <> anyNil ->
   Query Build fuel d ctx opts st
   = Some (([], Some (errorString ("unsupported sort key operator: "
                                   ++ Operator sort)%string)), st)).
Proof.
  intros HS HK HV.
  assert (Hguard : negb (Key sort =? "") && negb (isNil (Value sort)) = true).
  { rewrite (eqb_false_neq _ _ HK), (isNil_false _ HV). reflexivity. }
  split.
  - intros Hop. unfold keyCondition. rewrite HS, Hguard, Hop. reflexivity.
  - intros Hop HT HI HP HPK HPV. unfold Query.
    rewrite (queryInput_checked Build opts partition HT HI HP HPK HPV).
    unfold keyCondition. rewrite HS, Hguard, (eqb_false_neq _ _ Hop).
    reflexivity.
Qed.

(** X11: the [Operator] of the partition is never read: the partition is
    always compared by equality. *)
Theorem Query_ignores_Partition_Operator fuel opts partition op st :
  Partition opts = Some partition ->
  Query Build fuel d ctx
    (withPartition opts
       (Some {| Key := Key partition; Value := Value partition; Operator := op |}))
    st
  = Query Build fuel d ctx opts st.
Proof.
  intros HP. unfold Query, queryInput, keyCondition.
  cbn [withPartition Table Index Partition Sort Where' Limit Key Value].
  rewrite HP. reflexivity.
Qed.

(** X12: an error of the SDK's [Build] comes back as it is, not as one
    of the package's own errors, with nil items and the backend
    untouched. *)
Theorem Query_Build_error fuel opts partition keyEx builder e st :
  Table opts <> "" -> Index opts <> "" ->
  Partition opts = Some partition ->
  Key partition <> "" -> Value partition <> anyNil ->
  keyCondition opts partition = inr keyEx ->
  match Where' opts with
  | Some w =>
      exists filterExpr,
        buildFilterExpression w = inr filterExpr
        /\ builder = expression.WithFilter
                       (expression.WithKeyCondition expression.NewBuilder keyEx)
                       filterExpr
  | None => builder = expression.WithKeyCondition expression.NewBuilder keyEx
  end ->
  Build builder = inl e ->
  Query Build fuel d ctx opts st = Some (([], Some e), st).
Proof.
  intros HT HI HP HK HV Hkey HW HB. unfold Query.
  rewrite (queryInput_checked Build opts partition HT HI HP HK HV), Hkey.
  cbn [bind]. destruct (Where' opts) as [w|].
  - destruct HW as (filterExpr & -> & ->). cbn [bind]. rewrite HB. reflexivity.
  - subst builder. cbn [bind]. rewrite HB. reflexivity.
Qed.

(** X13: when the pages come one after the other with success until one
    has no token for a next, [Query] returns, with no error, the items of
    all the pages: page after page, and within a page in the order of the
    reply; nothing is dropped, repeated or reordered. *)
Theorem Query_exhausts_pages opts input responses p st0 st fuel :
  queryInput Build opts = inr input ->
  pagesFetched d ctx (dynamodb.NewQueryPaginator input, st0) responses (p, st) ->
  dynamodb.HasMorePages p = false ->
  (length responses < fuel)%nat ->
  Query Build fuel d ctx opts st0
  = Some ((concat (map dynamodb.Items responses), None), st).
Proof.
  intros Hin Hrun Hmore Hfuel. unfold Query. rewrite Hin.
  replace fuel with (length responses + S (fuel - length responses - 1))%nat
    by lia.
  pose proof (pagesFetched_fetches _ _ _ Hrun []) as Hf. cbn [fst snd app] in Hf.
  rewrite (paginate_fetches d ctx _ _ _ Hf). cbn [fst snd paginate].
  rewrite Hmore. reflexivity.
Qed.

(** X14: an error never comes with items.  Either the request could not
    be assembled, and then the backend was not contacted, or the error is
    [DynamoDBErrQuery]. *)
Theorem Query_error_nil_items fuel opts st items e st' :
  Query Build fuel d ctx opts st = Some ((items, Some e), st') ->
  items = []
  /\ ((queryInput Build opts = inl e /\ st' = st) \/ e = DynamoDBErrQuery).
Proof.
  unfold Query. destruct (queryInput Build opts) as [err|input].
  - intros H. injection H as <- <- <-. split; [reflexivity|]. left. split; reflexivity.
  - intros H. apply paginate_error in H. destruct H as [-> ->].
    split; [reflexivity|]. right. reflexivity.
Qed.


(** X16: the token a page comes with is the token the next page is asked
    from, as it is: after the pages [responses], the requests sent are
    the assembled request from no token, then from the [LastEvaluatedKey]
    of each reply but the last. *)
Theorem Query_relays_tokens opts input responses p st0 st :
  queryInput Build opts = inr input ->
  pagesFetched d ctx (dynamodb.NewQueryPaginator input, st0) responses (p, st) ->
  dynamodb.sent st
  = dynamodb.sent st0
    ++ map (requestFrom input)
         (firstn (length responses)
            (None :: map dynamodb.LastEvaluatedKey responses)).
Proof.
  intros Hin Hrun.
  apply (pagesFetched_requests input) in Hrun; [|reflexivity|reflexivity].
  cbn [fst snd] in Hrun. rewrite Hrun.
  apply queryInput_inr in Hin. destruct Hin as [expr ->]. reflexivity.
Qed.

Lemma paginate_endless fuel p items st :
  (forall request w,
     exists output w',
       client d ctx request w = (inr output, w')
       /\ dynamodb.LastEvaluatedKey output <> None) ->
  dynamodb.HasMorePages p = true ->
  paginate fuel d ctx p items st = None.
Proof.
  intros Hclient. revert p items st.
  induction fuel as [|fuel IH]; intros p items st Hmore; [reflexivity|].
  cbn [paginate]. rewrite Hmore. unfold dynamodb.NextPage. rewrite Hmore.
  cbn [negb].
  destruct (Hclient (dynamodb.pageRequest p) (dynamodb.world st))
    as (output & w' & -> & Htoken).
  apply IH. unfold dynamodb.HasMorePages. cbn.
  destruct (dynamodb.LastEvaluatedKey output); [reflexivity | congruence].
Qed.

(** X17: the loop has no bound of its own on the number of pages:
    against a backend that answers every request with a page and a token
    for a next one, [Query] does not return, however long it runs. *)
Theorem Query_endless opts input st :
  (forall request w,
     exists output w',
       client d ctx request w = (inr output, w')
       /\ dynamodb.LastEvaluatedKey output <> None) ->
  queryInput Build opts = inr input ->
  forall fuel, Query Build fuel d ctx opts st = None.
Proof.
  intros Hclient Hin fuel. unfold Query. rewrite Hin.
  apply paginate_endless; [exact Hclient | reflexivity].
Qed.

Lemma paginate_context (ctx' : Ctx) fuel p items st :
  (forall request w, client d ctx' request w = client d ctx request w) ->
  paginate fuel d ctx' p items st = paginate fuel d ctx p items st.
Proof.
  intros Hclient. revert p items st.
  induction fuel as [|fuel IH]; intros p items st; [reflexivity|].
  cbn [paginate]. destruct (dynamodb.HasMorePages p) eqn:Hmore; [|reflexivity].
  unfold dynamodb.NextPage. rewrite Hmore, Hclient. cbn [negb].
  destruct (client d ctx (dynamodb.pageRequest p) (dynamodb.world st))
    as [[err|output] w]; [reflexivity|]. apply IH.
Qed.

(** X18: [Query] does nothing with the context but hand it to the
    client: under two contexts that the client answers alike, the run is
    the same.  A cancellation or deadline acts only through the client. *)
Theorem Query_context (ctx' : Ctx) fuel opts st :
  (forall request w, client d ctx' request w = client d ctx request w) ->
  Query Build fuel d ctx' opts st = Query Build fuel d ctx opts st.
Proof.
  intros Hclient. unfold Query.
  destruct (queryInput Build opts) as [err|input]; [reflexivity|].
  apply paginate_context. exact Hclient.
Qed.

End MoreQueryProperties.

(** ** Further runs on the synthetic SDK *)

(** The sort key's operator left unset, and a filter that would not
    compile either: the sort key's error comes first. *)
Lemma Query_sort_operator_witness :
  let opts :=
    withSort (withWhere Synthetic.cliOptions (Some Synthetic.likeWhere))
      (Some {| Key := "genre"; Value := anyString "Comedy"; Operator := "" |}) in
  let st := Synthetic.start [Synthetic.page1] in
  Query Synthetic.Build 2 Synthetic.service None opts st
  = Some (([], Some (errorString "unsupported sort key operator: ")), st).
Proof.
  cbv zeta.
  apply (proj2 (Query_sort_operator Synthetic.Build Synthetic.service None 2
                  (withSort (withWhere Synthetic.cliOptions (Some Synthetic.likeWhere))
                     (Some {| Key := "genre"; Value := anyString "Comedy";
                              Operator := "" |}))
                  {| Key := "Status"; Value := anyString "active"; Operator := "" |}
                  {| Key := "genre"; Value := anyString "Comedy"; Operator := "" |}
                  (Synthetic.start [Synthetic.page1])
                  eq_refl ltac:(discriminate) ltac:(discriminate)));
    try reflexivity; discriminate.
Defined.

Lemma Query_ignores_Partition_Operator_witness :
  let st := Synthetic.start [Synthetic.page1; Synthetic.page2; Synthetic.page3] in
  Query Synthetic.Build 4 Synthetic.service None
    (withPartition Synthetic.cliOptions
       (Some {| Key := "Status"; Value := anyString "active";
                Operator := BeginsWith |})) st
  = Query Synthetic.Build 4 Synthetic.service None Synthetic.cliOptions st.
Proof.
  cbv zeta.
  apply (Query_ignores_Partition_Operator Synthetic.Build Synthetic.service None 4
           Synthetic.cliOptions
           {| Key := "Status"; Value := anyString "active"; Operator := "" |}
           BeginsWith).
  reflexivity.
Defined.

(** A condition on an attribute without a name compiles, and is refused
    by [Build]. *)
Lemma Query_Build_error_witness :
  let opts :=
    withWhere Synthetic.cliOptions
      (Some (mkWhere [ mkWhereCondition "" Equal (anyInt 1) anyNil [] ] [] "")) in
  let st := Synthetic.start [Synthetic.page1] in
  Query Synthetic.BuildNamed 2 Synthetic.service None opts st
  = Some (([], Some (sdkError "unset parameter: NameBuilder")), st).
Proof.
  cbv zeta.
  apply (Query_Build_error Synthetic.BuildNamed Synthetic.service None 2
           (withWhere Synthetic.cliOptions
              (Some (mkWhere [ mkWhereCondition "" Equal (anyInt 1) anyNil [] ] [] "")))
           {| Key := "Status"; Value := anyString "active"; Operator := "" |}
           (expression.KeyEqual (expression.Key "Status")
                                (expression.Value (anyString "active")))
           (expression.WithFilter
              (expression.WithKeyCondition expression.NewBuilder
                 (expression.KeyEqual (expression.Key "Status")
                                      (expression.Value (anyString "active"))))
              (expression.Equal (expression.Name "") (expression.Value (anyInt 1)))));
    try reflexivity; try discriminate.
  eexists. split; reflexivity.
Defined.

(** Three pages of 3, 3 and 2 items: eight items, in order. *)
Lemma Query_exhausts_pages_witness :
  Query Synthetic.Build 4 Synthetic.service None Synthetic.cliOptions
    (Synthetic.start [Synthetic.page1; Synthetic.page2; Synthetic.page3])
  = Some (([ Synthetic.item "id" "1"; Synthetic.item "id" "2";
             Synthetic.item "id" "3"; Synthetic.item "id" "4";
             Synthetic.item "id" "5"; Synthetic.item "id" "6";
             Synthetic.item "id" "7"; Synthetic.item "id" "8" ], None),
          Synthetic.exhausted).
Proof.
  apply (Query_exhausts_pages Synthetic.Build Synthetic.service None
           Synthetic.cliOptions Synthetic.cliInput
           [Synthetic.output1; Synthetic.output2; Synthetic.output3]
           (Synthetic.cliPaginator None)
           (Synthetic.start [Synthetic.page1; Synthetic.page2; Synthetic.page3])
           Synthetic.exhausted 4).
  - reflexivity.
  - repeat (eapply pagesFetched_page; [reflexivity | reflexivity |]).
    apply pagesFetched_none.
  - reflexivity.
  - cbn. lia.
Defined.

Lemma Query_error_nil_items_witness :
  @nil Item = []
  /\ ((queryInput Synthetic.Build Synthetic.cliOptions = inl DynamoDBErrQuery
       /\ {| dynamodb.world :=
               {| Synthetic.script := [Synthetic.page3]; Synthetic.served := 1 |};
             dynamodb.sent :=
               [ Synthetic.cliRequest None;
                 Synthetic.cliRequest (Some (Synthetic.item "id" "3")) ] |}
          = Synthetic.start [Synthetic.page1; inl (sdkError "throttled");
                             Synthetic.page3])
      \/ DynamoDBErrQuery = DynamoDBErrQuery).
Proof.
  apply (Query_error_nil_items Synthetic.Build Synthetic.service None 4
           Synthetic.cliOptions
           (Synthetic.start [Synthetic.page1; inl (sdkError "throttled");
                             Synthetic.page3])).
  reflexivity.
Defined.


Lemma Query_relays_tokens_witness :
  dynamodb.sent Synthetic.exhausted
  = map (requestFrom Synthetic.cliInput)
      [ None; Some (Synthetic.item "id" "3"); Some (Synthetic.item "id" "6") ].
Proof.
  apply (Query_relays_tokens Synthetic.Build Synthetic.service None
           Synthetic.cliOptions Synthetic.cliInput
           [Synthetic.output1; Synthetic.output2; Synthetic.output3]
           (Synthetic.cliPaginator None)
           (Synthetic.start [Synthetic.page1; Synthetic.page2; Synthetic.page3])
           Synthetic.exhausted).
  - reflexivity.
  - repeat (eapply pagesFetched_page; [reflexivity | reflexivity |]).
    apply pagesFetched_none.
Defined.

Lemma Query_endless_witness :
  Query Synthetic.Build 1000 (mkService Synthetic.QueryForever) None
    Synthetic.cliOptions (Synthetic.start [])
  = None.
Proof.
  refine (Query_endless Synthetic.Build (mkService Synthetic.QueryForever) None
            Synthetic.cliOptions Synthetic.cliInput (Synthetic.start [])
            _ _ 1000%nat).
  - intros request w. eexists. eexists. split; [reflexivity | discriminate].
  - reflexivity.
Defined.

(** The client that does not look at the context: cancelled after one
    page or never cancelled, the run is the same. *)
Lemma Query_context_witness :
  let st := Synthetic.start [Synthetic.page1; Synthetic.page2; Synthetic.page3] in
  Query Synthetic.Build 4 (mkService Synthetic.QueryUnaware) (Some 1%nat)
    Synthetic.cliOptions st
  = Query Synthetic.Build 4 (mkService Synthetic.QueryUnaware) None
      Synthetic.cliOptions st.
Proof.
  cbv zeta.
  apply (Query_context Synthetic.Build (mkService Synthetic.QueryUnaware)
           None (Some 1%nat)).
  intros request w. reflexivity.
Defined.
